(** * Order/customer backend: sanitizers, visibility gate, pagination

    A shallow embedding of the request-handling core of the backend
    (controllers [orders], [customers] and the [middlewares/sanitize]
    helpers) together with the properties of its specification.

    Conventions of the embedding:
    - JavaScript values are the inductive [JsValue]; an object is the
      list of its own enumerable entries in [Object.entries] order.
    - A thrown exception is the [Throw] branch of [Outcome]; the error
      classes of the repository are [BadRequestError] and
      [NotFoundError], every other exception ([TypeError],
      [SyntaxError], driver errors) is [InternalError].
    - Numbers are exact integers with an explicit [NaN] (amounts are
      counted in the smallest currency unit).
    - Strings are byte strings; every character the code inspects is
      ASCII. *)

From Stdlib Require Import String Ascii ZArith List Bool Lia Permutation.
Import ListNotations.

Open Scope string_scope.
Open Scope Z_scope.

Set Warnings "-register-all".

(** ** Outcomes of a computation that may throw *)

Inductive HttpError : Type :=
| BadRequestError
| NotFoundError
| InternalError.

Inductive Outcome (A : Type) : Type :=
| Ok (a : A)
| Throw (e : HttpError).

Arguments Ok {A} a.
Arguments Throw {A} e.

Definition bind {A B : Type} (c : Outcome A) (k : A -> Outcome B) : Outcome B :=
  match c with
  | Ok a => k a
  | Throw e => Throw e
  end.

Notation "x <- c ;; k" := (bind c (fun x => k))
  (at level 61, c at next level, right associativity).

Definition throws {A : Type} (c : Outcome A) (e : HttpError) : Prop :=
  c = Throw e.

Definition returns {A : Type} (c : Outcome A) : Prop :=
  exists a, c = Ok a.

(** ** JavaScript values *)

Inductive JsNumber : Type :=
| NaN
| Num (z : Z).

Inductive JsValue : Type :=
| JUndefined
| JNull
| JBool (b : bool)
| JNum (n : JsNumber)
| JStr (s : string)
| JDate (time : JsNumber)
| JArr (items : list JsValue)
| JObj (fields : list (string * JsValue)).

Definition Fields : Type := list (string * JsValue).

(** [obj[key]] *)
Fixpoint get_field (key : string) (fields : Fields) : JsValue :=
  match fields with
  | [] => JUndefined
  | (k, v) :: rest => if String.eqb k key then v else get_field key rest
  end.

(** [obj[key] = value] *)
Fixpoint set_field (key : string) (value : JsValue) (fields : Fields) : Fields :=
  match fields with
  | [] => [(key, value)]
  | (k, v) :: rest =>
      if String.eqb k key then (k, value) :: rest
      else (k, v) :: set_field key value rest
  end.

(** [{...a, ...b}] *)
Definition spread (a b : Fields) : Fields :=
  fold_left (fun acc kv => set_field (fst kv) (snd kv) acc) b a.

(** ToBoolean *)
Definition truthy (v : JsValue) : bool :=
  match v with
  | JUndefined | JNull => false
  | JBool b => b
  | JNum NaN => false
  | JNum (Num z) => negb (z =? 0)
  | JStr s => negb (String.eqb s "")
  | JDate _ | JArr _ | JObj _ => true
  end.

(** [typeof v === 'object' && v !== null] *)
Definition is_object (v : JsValue) : bool :=
  match v with
  | JDate _ | JArr _ | JObj _ => true
  | _ => false
  end.

(** [s.startsWith('$')] *)
Definition startsWith_dollar (s : string) : bool :=
  match s with
  | String c _ => Ascii.eqb c "$"
  | EmptyString => false
  end.

(** The decimal spelling of an array index, as [Object.entries] gives it. *)
Definition digit_char (d : nat) : ascii :=
  ascii_of_nat (48 + d).

Fixpoint index_key_aux (fuel n : nat) (acc : string) : string :=
  match fuel with
  | O => acc
  | S fuel' =>
      let acc' := String (digit_char (Nat.modulo n 10)) acc in
      if Nat.ltb n 10 then acc' else index_key_aux fuel' (Nat.div n 10) acc'
  end.

Definition index_key (n : nat) : string :=
  index_key_aux (S n) n "".

(** ** sanitizeSearch (middlewares/sanitize/sanitizeSearch.ts) *)

(** [s.replace(/[class]/g, f)] for a single-character pattern. *)
Fixpoint replace_each (f : ascii -> string) (s : string) : string :=
  match s with
  | EmptyString => EmptyString
  | String c rest => f c ++ replace_each f rest
  end.

Definition backslash : ascii := "\"%char.
Definition single_quote : ascii := "'"%char.
Definition double_quote : ascii := "034"%char.

(** The class [[.*+?^${}()|[\]\\]]. *)
Definition is_regex_meta (c : ascii) : bool :=
  existsb (Ascii.eqb c)
    ["."; "*"; "+"; "?"; "^"; "$"; "{"; "}"; "("; ")"; "|"; "["; "]"; "\"]%char.

(** [.replace(/[.*+?^${}()|[\]\\]/g, '\\$&')] *)
Definition escape_meta (c : ascii) : string :=
  if is_regex_meta c then String backslash (String c EmptyString)
  else String c EmptyString.

(** [.replace(/\\/g, '\\\\')] *)
Definition double_backslash (c : ascii) : string :=
  if Ascii.eqb c backslash then String backslash (String backslash EmptyString)
  else String c EmptyString.

(** [.replace(/'/g, '\\\'')] *)
Definition escape_single_quote (c : ascii) : string :=
  if Ascii.eqb c single_quote then String backslash (String single_quote EmptyString)
  else String c EmptyString.

(** [.replace(/"/g, '\\"')] *)
Definition escape_double_quote (c : ascii) : string :=
  if Ascii.eqb c double_quote then String backslash (String double_quote EmptyString)
  else String c EmptyString.

Definition sanitizeSearch (input : string) : string :=
  replace_each escape_double_quote
    (replace_each escape_single_quote
       (replace_each double_backslash
          (replace_each escape_meta input))).

(** The escaping the specification words describe: every regex
    metacharacter of the input is preceded by exactly one backslash and
    nothing else changes. *)
Definition escape_once_spec (input : string) : string :=
  replace_each escape_meta input.

(** ** sanitizeQueryParams (middlewares/sanitize/sanitizeQueryParams.ts) *)

(** [Object.entries] of a string: one entry per character. *)
Fixpoint string_entries (i : nat) (s : string) : Fields :=
  match s with
  | EmptyString => []
  | String c rest => (index_key i, JStr (String c EmptyString)) :: string_entries (S i) rest
  end.

(** One iteration of the loop body; [nested] is the recursive call on
    [value], used only when [value] is a non-null object. *)
Definition query_entry (key : string) (value : JsValue)
    (nested : Outcome JsValue) (sanitizedData : Fields) : Outcome Fields :=
  match value with
  | JStr s =>
      if startsWith_dollar s then Throw BadRequestError
      else Ok (set_field key (JStr (sanitizeSearch s)) sanitizedData)
  | JDate _ | JArr _ | JObj _ =>
      r <- nested ;; Ok (set_field key r sanitizedData)
  | _ => Ok (set_field key value sanitizedData)
  end.

Fixpoint sanitizeQueryParams (query : JsValue) : Outcome JsValue :=
  match query with
  | JObj fields =>
      (fix loop (entries : Fields) (sanitizedData : Fields) : Outcome JsValue :=
         match entries with
         | [] => Ok (JObj sanitizedData)
         | (key, value) :: rest =>
             acc <- query_entry key value (sanitizeQueryParams value) sanitizedData ;;
             loop rest acc
         end) fields []
  | JArr items =>
      (fix loop (i : nat) (entries : list JsValue) (sanitizedData : Fields)
         : Outcome JsValue :=
         match entries with
         | [] => Ok (JObj sanitizedData)
         | value :: rest =>
             acc <- query_entry (index_key i) value (sanitizeQueryParams value)
                      sanitizedData ;;
             loop (S i) rest acc
         end) 0%nat items []
  | JStr s =>
      (fix loop (entries : Fields) (sanitizedData : Fields) : Outcome JsValue :=
         match entries with
         | [] => Ok (JObj sanitizedData)
         | (key, value) :: rest =>
             acc <- query_entry key value (Throw InternalError) sanitizedData ;;
             loop rest acc
         end) (string_entries 0 s) []
  | JDate _ | JNum _ | JBool _ => Ok (JObj [])
  | JUndefined | JNull => Throw InternalError
  end.

(** ** sanitizeAggregationFilters (middlewares/sanitize/sanitizeAggregationParams.ts) *)

Definition aggregation_entry (key : string) (value : JsValue)
    (nested : Outcome JsValue) (sanitized : Fields) : Outcome Fields :=
  if startsWith_dollar key then Throw BadRequestError
  else
    match value with
    | JStr s =>
        if startsWith_dollar s then Throw BadRequestError
        else Ok (set_field key value sanitized)
    | JDate _ | JArr _ | JObj _ =>
        r <- nested ;; Ok (set_field key r sanitized)
    | _ => Ok (set_field key value sanitized)
    end.

(** The two checks after the loop: [sanitized.$expr], [sanitized.$function]. *)
Definition aggregation_finish (sanitized : Fields) : Outcome JsValue :=
  if truthy (get_field "$expr" sanitized) then Throw BadRequestError
  else if truthy (get_field "$function" sanitized) then Throw BadRequestError
  else Ok (JObj sanitized).

Fixpoint sanitizeAggregationFilters (filters : JsValue) : Outcome JsValue :=
  match filters with
  | JObj fields =>
      (fix loop (entries : Fields) (sanitized : Fields) : Outcome JsValue :=
         match entries with
         | [] => aggregation_finish sanitized
         | (key, value) :: rest =>
             acc <- aggregation_entry key value (sanitizeAggregationFilters value)
                      sanitized ;;
             loop rest acc
         end) fields []
  | JArr items =>
      (fix loop (i : nat) (entries : list JsValue) (sanitized : Fields)
         : Outcome JsValue :=
         match entries with
         | [] => aggregation_finish sanitized
         | value :: rest =>
             acc <- aggregation_entry (index_key i) value
                      (sanitizeAggregationFilters value) sanitized ;;
             loop (S i) rest acc
         end) 0%nat items []
  | JDate _ => aggregation_finish []
  | JUndefined | JNull | JBool _ | JNum _ | JStr _ => Ok filters
  end.

(** "Some string key or some string value begins with the operator
    sentinel", at any depth. *)
Fixpoint has_sentinel (v : JsValue) : bool :=
  match v with
  | JStr s => startsWith_dollar s
  | JArr items => existsb has_sentinel items
  | JObj fields =>
      existsb (fun kv => startsWith_dollar (fst kv) || has_sentinel (snd kv)) fields
  | _ => false
  end.

(** "Some string value begins with the operator sentinel", at any depth. *)
Fixpoint has_sentinel_value (v : JsValue) : bool :=
  match v with
  | JStr s => startsWith_dollar s
  | JArr items => existsb has_sentinel_value items
  | JObj fields => existsb (fun kv => has_sentinel_value (snd kv)) fields
  | _ => false
  end.

(** The loops of the two sanitizers, named for the proofs. *)
Fixpoint query_obj_loop (entries : Fields) (sanitizedData : Fields) : Outcome JsValue :=
  match entries with
  | [] => Ok (JObj sanitizedData)
  | (key, value) :: rest =>
      acc <- query_entry key value (sanitizeQueryParams value) sanitizedData ;;
      query_obj_loop rest acc
  end.

Fixpoint query_arr_loop (i : nat) (entries : list JsValue) (sanitizedData : Fields)
  : Outcome JsValue :=
  match entries with
  | [] => Ok (JObj sanitizedData)
  | value :: rest =>
      acc <- query_entry (index_key i) value (sanitizeQueryParams value) sanitizedData ;;
      query_arr_loop (S i) rest acc
  end.

Fixpoint agg_obj_loop (entries : Fields) (sanitized : Fields) : Outcome JsValue :=
  match entries with
  | [] => aggregation_finish sanitized
  | (key, value) :: rest =>
      acc <- aggregation_entry key value (sanitizeAggregationFilters value) sanitized ;;
      agg_obj_loop rest acc
  end.

Fixpoint agg_arr_loop (i : nat) (entries : list JsValue) (sanitized : Fields)
  : Outcome JsValue :=
  match entries with
  | [] => aggregation_finish sanitized
  | value :: rest =>
      acc <- aggregation_entry (index_key i) value (sanitizeAggregationFilters value)
               sanitized ;;
      agg_arr_loop (S i) rest acc
  end.

(** ** Induction over nested values *)

(** Induction principle with the hypotheses on the elements of an array
    and on the values of an object. *)
Fixpoint JsValue_nested_ind (P : JsValue -> Prop)
    (P_undefined : P JUndefined)
    (P_null : P JNull)
    (P_bool : forall b, P (JBool b))
    (P_num : forall n, P (JNum n))
    (P_str : forall s, P (JStr s))
    (P_date : forall t, P (JDate t))
    (P_arr : forall items, Forall P items -> P (JArr items))
    (P_obj : forall fields, Forall (fun kv => P (snd kv)) fields -> P (JObj fields))
    (v : JsValue) {struct v} : P v :=
  let rec :=
    JsValue_nested_ind P P_undefined P_null P_bool P_num P_str P_date P_arr P_obj in
  match v with
  | JUndefined => P_undefined
  | JNull => P_null
  | JBool b => P_bool b
  | JNum n => P_num n
  | JStr s => P_str s
  | JDate t => P_date t
  | JArr items =>
      P_arr items
        ((fix all (xs : list JsValue) : Forall P xs :=
            match xs with
            | [] => Forall_nil P
            | x :: rest => Forall_cons x (rec x) (all rest)
            end) items)
  | JObj fields =>
      P_obj fields
        ((fix all (fs : Fields) : Forall (fun kv => P (snd kv)) fs :=
            match fs with
            | [] => Forall_nil _
            | kv :: rest => Forall_cons kv (rec (snd kv)) (all rest)
            end) fields)
  end.

(** No key of [fields] begins with the operator sentinel. *)
Definition no_dollar_keys (fields : Fields) : Prop :=
  Forall (fun kv => startsWith_dollar (fst kv) = false) fields.

(** What one sanitizer does on a value: it throws [BadRequestError]
    when [bad] holds of the value and returns otherwise. *)
Definition rejects_exactly (bad : JsValue -> bool)
    (f : JsValue -> Outcome JsValue) (v : JsValue) : Prop :=
  if bad v then f v = Throw BadRequestError else returns (f v).

(** Some character of [s] satisfies [p]. *)
Fixpoint string_exists (p : ascii -> bool) (s : string) : bool :=
  match s with
  | EmptyString => false
  | String c rest => p c || string_exists p rest
  end.

(** Number of characters of [s] that satisfy [p]. *)
Fixpoint string_count (p : ascii -> bool) (s : string) : nat :=
  match s with
  | EmptyString => O
  | String c rest => ((if p c then 1 else 0) + string_count p rest)%nat
  end.

Definition is_backslash (c : ascii) : bool :=
  Ascii.eqb c backslash.

(** The characters [sanitizeSearch] rewrites. *)
Definition is_search_special (c : ascii) : bool :=
  is_regex_meta c || Ascii.eqb c single_quote || Ascii.eqb c double_quote.

(** ** Pagination parameters *)

(** White space that [parseInt] skips (the ASCII part of it). *)
Definition is_space (c : ascii) : bool :=
  existsb (Ascii.eqb c) ["032"; "009"; "010"; "011"; "012"; "013"]%char.

Fixpoint skip_spaces (s : string) : string :=
  match s with
  | String c rest => if is_space c then skip_spaces rest else s
  | EmptyString => EmptyString
  end.

(** Value of a digit in the given radix (10 or 16). *)
Definition digit_value (radix : Z) (c : ascii) : option Z :=
  let n := Z.of_nat (nat_of_ascii c) in
  if (48 <=? n) && (n <=? 57) then Some (n - 48)
  else if (radix =? 16) && (97 <=? n) && (n <=? 102) then Some (n - 87)
  else if (radix =? 16) && (65 <=? n) && (n <=? 70) then Some (n - 55)
  else None.

(** Longest prefix of digits; [None] when there is no digit. *)
Fixpoint read_digits (radix : Z) (s : string) (acc : option Z) : option Z :=
  match s with
  | EmptyString => acc
  | String c rest =>
      match digit_value radix c with
      | Some d =>
          read_digits radix rest
            (Some (match acc with Some a => a * radix + d | None => d end))
      | None => acc
      end
  end.

Definition read_unsigned (s : string) : option Z :=
  match s with
  | String "0" (String "x" rest) | String "0" (String "X" rest) =>
      read_digits 16 rest None
  | _ => read_digits 10 s None
  end.

(** [parseInt(s)] without radix argument. Values beyond 2^53 are kept
    exact here where the engine rounds them. *)
Definition parseInt_string (s : string) : JsNumber :=
  let s := skip_spaces s in
  let (negative, s) :=
    match s with
    | String "-" rest => (true, rest)
    | String "+" rest => (false, rest)
    | _ => (false, s)
    end in
  match read_unsigned s with
  | Some n => Num (if negative then - n else n)
  | None => NaN
  end.

(** [parseInt(v)] for the shapes a parsed query string has. The
    argument is converted to a string first: an array spells as its
    elements joined by commas, so only its first element is read; an
    object, a boolean, [null] and [undefined] spell as words. *)
Fixpoint parseInt (v : JsValue) : JsNumber :=
  match v with
  | JStr s => parseInt_string s
  | JNum n => n
  | JArr (first :: _) => parseInt first
  | _ => NaN
  end.

(** [n || d] for a number [n]. *)
Definition number_or (n : JsNumber) (d : Z) : Z :=
  match n with
  | NaN => d
  | Num z => if z =? 0 then d else z
  end.

(** [Math.max(1, parseInt(req.query.page as string) || 1)] *)
Definition page_of_query (query : Fields) : Z :=
  Z.max 1 (number_or (parseInt (get_field "page" query)) 1).

(** [Math.min(10, parseInt(req.query.limit as string) || 10)] *)
Definition limit_of_query (query : Fields) : Z :=
  Z.min 10 (number_or (parseInt (get_field "limit" query)) 10).

(** [Math.ceil(total / size)] for [size <> 0]. *)
Definition ceil_div (total size : Z) : Z :=
  - ((- total) / size).

Record Pagination : Type := {
  totalItems : Z;
  totalPages : Z;
  currentPage : Z;
  pageSize : Z
}.

(** The envelope every list path assembles from the post-filter count. *)
Definition pagination (total page limit : Z) : Pagination :=
  {| totalItems := total;
     totalPages := ceil_div total limit;
     currentPage := page;
     pageSize := limit |}.

(** [array.slice(start, end)] *)
Definition slice {A : Type} (start stop : Z) (l : list A) : list A :=
  let len := Z.of_nat (List.length l) in
  let k := if start <? 0 then Z.max (len + start) 0 else Z.min start len in
  let final := if stop <? 0 then Z.max (len + stop) 0 else Z.min stop len in
  firstn (Z.to_nat (final - k)) (skipn (Z.to_nat k) l).

(** ** Stored documents *)

Definition ObjectId : Type := string.

Record Product : Type := {
  product_id : ObjectId;
  title : string;
  price : option Z          (* [null]: not for sale *)
}.

Record User : Type := {
  user_id : ObjectId;
  roles : list string;
  user_name : string;
  user_email : string;
  user_phone : option string
}.

Record Order : Type := {
  order_id : ObjectId;
  orderNumber : Z;
  status : string;
  totalAmount : Z;
  products : list ObjectId;
  customer : ObjectId;
  deliveryAddress : option string;
  comment : option string;
  email : option string;
  phone : option string;
  createdAt : Z
}.

Record Db : Type := {
  Orders : list Order;
  Products : list Product;
  Users : list User
}.

(** A row of the aggregation after both [$lookup]s and both [$unwind]s:
    the order, its customer and one of its products. *)
Record Row : Type := {
  row_order : Order;
  row_customer : User;
  row_product : Product
}.

(** The object literal [createOrder] passes to [new Order(...)]. *)
Record NewOrder : Type := {
  new_totalAmount : JsValue;
  new_products : list JsValue;
  new_payment : JsValue;
  new_phone : JsValue;
  new_email : JsValue;
  new_comment : JsValue;
  new_customer : ObjectId;
  new_deliveryAddress : JsValue
}.

(** ** Imported library functions

    The functions the controllers import from packages whose code is
    not part of the repository. Each is a parameter of the embedding. *)

Class External : Type := {
  (** [sanitizeHtml(text, options)] of the package sanitize-html with
      the options object of sanitizeHtml.ts; it may throw on an
      argument that is not a string. *)
  sanitizeHtml : JsValue -> Outcome string;
  (** [Number(s)] *)
  Number : string -> JsNumber;
  (** [new RegExp(source, 'i')], which throws on a malformed source,
      and the test of the compiled expression against a string. *)
  RegExp : string -> Outcome (string -> bool);
  (** Time value of [new Date(s)]; [NaN] for an invalid date. *)
  Date_parse : string -> JsNumber;
  (** Time value after [setHours(23, 59, 59, 999)]. *)
  setHours_endOfDay : JsNumber -> JsNumber;
  (** [Types.ObjectId.isValid(v)] *)
  ObjectId_isValid : JsValue -> bool;
  (** [objectId.equals(v)] for an arbitrary argument. *)
  ObjectId_equals : ObjectId -> JsValue -> bool;
  (** Whether a stored value satisfies a filter condition that is an
      object (operator expression, embedded document, date). *)
  mongo_condition : JsValue -> JsValue -> bool;
  (** [new Order(literal)] followed by [save()]: the store with the
      new order and the stored order, or the error of the schema
      validation ([ValidationError], answered as [BadRequestError]). *)
  Order_save : Db -> NewOrder -> Outcome (Db * Order);
  (** The aggregation stage [$sort] for a one-field specification
      [{ field: direction }]: the rows in that order. *)
  mongo_sort : string -> Z -> list Row -> list Row
}.

(** ** cleanHtml (middlewares/sanitize/sanitizeHtml.ts) *)

Definition cleanHtml {E : External} (checkedText : JsValue) : Outcome string :=
  sanitizeHtml checkedText.

(** [s || ''] for a string [s]. *)
Definition or_empty (s : string) : string :=
  if String.eqb s "" then "" else s.

(** ** sanitizeOrder (middlewares/sanitize/sanitizeOrder.ts)

    [orderObject] is the plain object of the order ([order.toObject()]
    when the argument is a document). The properties of the literal are
    evaluated in source order. *)
Definition sanitizeOrder {E : External} (orderObject : Fields) : Outcome Fields :=
  deliveryAddress <- cleanHtml (get_field "deliveryAddress" orderObject) ;;
  comment <- cleanHtml (JObj orderObject) ;;
  email <- cleanHtml (get_field "email" orderObject) ;;
  phone <- cleanHtml (get_field "phone" orderObject) ;;
  Ok (spread orderObject
        [("deliveryAddress", JStr (or_empty deliveryAddress));
         ("comment", JStr (or_empty comment));
         ("email", JStr (or_empty email));
         ("phone", JStr (or_empty phone))]).

(** What the specification words say of the Output Sanitizer: every
    markup-bearing field is the Markup Sanitizer applied to that same
    field of the record. *)
Definition sanitizeOrder_spec {E : External} (orderObject : Fields) : Outcome Fields :=
  deliveryAddress <- cleanHtml (get_field "deliveryAddress" orderObject) ;;
  comment <- cleanHtml (get_field "comment" orderObject) ;;
  email <- cleanHtml (get_field "email" orderObject) ;;
  phone <- cleanHtml (get_field "phone" orderObject) ;;
  Ok (spread orderObject
        [("deliveryAddress", JStr (or_empty deliveryAddress));
         ("comment", JStr (or_empty comment));
         ("email", JStr (or_empty email));
         ("phone", JStr (or_empty phone))]).

(** [array.map(f)] for an [f] that may throw. *)
Fixpoint map_outcome {A B : Type} (f : A -> Outcome B) (l : list A) : Outcome (list B) :=
  match l with
  | [] => Ok []
  | x :: rest =>
      y <- f x ;;
      ys <- map_outcome f rest ;;
      Ok (y :: ys)
  end.

(** ** Documents as plain objects *)

Definition optional_field (key : string) (value : option string) : Fields :=
  match value with
  | Some s => [(key, JStr s)]
  | None => []
  end.

Definition product_toObject (p : Product) : Fields :=
  [("_id", JStr (product_id p));
   ("title", JStr (title p));
   ("price", match price p with Some z => JNum (Num z) | None => JNull end)].

Definition user_toObject (u : User) : Fields :=
  ([("_id", JStr (user_id u));
    ("roles", JArr (map JStr (roles u)));
    ("name", JStr (user_name u));
    ("email", JStr (user_email u))]
   ++ optional_field "phone" (user_phone u))%list.

(** [order.toObject()]; [customer_value] and [products_value] are the
    values of the two reference paths, populated or not. *)
Definition order_toObject (customer_value products_value : JsValue) (o : Order) : Fields :=
  ([("_id", JStr (order_id o));
    ("orderNumber", JNum (Num (orderNumber o)));
    ("status", JStr (status o));
    ("totalAmount", JNum (Num (totalAmount o)));
    ("products", products_value);
    ("customer", customer_value)]
   ++ optional_field "deliveryAddress" (deliveryAddress o)
   ++ optional_field "comment" (comment o)
   ++ optional_field "email" (email o)
   ++ optional_field "phone" (phone o)
   ++ [("createdAt", JDate (Num (createdAt o)))])%list.

(** ** The document store *)

(** The documents of [products] an order refers to: what
    [populate('products')] and the [$lookup] on [products] resolve. *)
Definition resolve_products (db : Db) (o : Order) : list Product :=
  filter (fun p => existsb (String.eqb (product_id p)) (products o)) (Products db).

(** The documents of [users] an order refers to. *)
Definition resolve_customer (db : Db) (o : Order) : list User :=
  filter (fun u => String.eqb (user_id u) (customer o)) (Users db).

Definition populated_customer (db : Db) (o : Order) : JsValue :=
  match resolve_customer db o with
  | u :: _ => JObj (user_toObject u)
  | [] => JNull
  end.

Definition populated_products (db : Db) (o : Order) : JsValue :=
  JArr (map (fun p => JObj (product_toObject p)) (resolve_products db o)).

(** Value of a path of the stored order, as a filter sees it. *)
Definition order_value (o : Order) (path : string) : JsValue :=
  if String.eqb path "_id" then JStr (order_id o)
  else if String.eqb path "orderNumber" then JNum (Num (orderNumber o))
  else if String.eqb path "status" then JStr (status o)
  else if String.eqb path "totalAmount" then JNum (Num (totalAmount o))
  else if String.eqb path "customer" then JStr (customer o)
  else if String.eqb path "createdAt" then JDate (Num (createdAt o))
  else get_field path
         (optional_field "deliveryAddress" (deliveryAddress o)
          ++ optional_field "comment" (comment o)
          ++ optional_field "email" (email o)
          ++ optional_field "phone" (phone o))%list.

Definition number_eqb (a b : JsNumber) : bool :=
  match a, b with
  | Num x, Num y => x =? y
  | NaN, NaN => true
  | _, _ => false
  end.

(** Equality match of a stored value against a scalar of the filter. *)
Definition scalar_eqb (stored wanted : JsValue) : bool :=
  match stored, wanted with
  | JStr a, JStr b => String.eqb a b
  | JNum a, JNum b => number_eqb a b
  | JBool a, JBool b => Bool.eqb a b
  | (JNull | JUndefined), (JNull | JUndefined) => true
  | _, _ => false
  end.

(** A filter document against a stored order: every entry must hold. *)
Definition mongo_match {E : External} (filter : Fields) (o : Order) : bool :=
  forallb
    (fun kv =>
       if is_object (snd kv) then mongo_condition (snd kv) (order_value o (fst kv))
       else scalar_eqb (order_value o (fst kv)) (snd kv))
    filter.

(** [cursor.skip(skip).limit(limit)]: the store refuses a negative
    skip; a negative limit counts as its absolute value and zero as no
    limit. *)
Definition skip_limit {A : Type} (skip limit : Z) (l : list A) : Outcome (list A) :=
  if skip <? 0 then Throw InternalError
  else
    let rest := skipn (Z.to_nat skip) l in
    Ok (if limit =? 0 then rest else firstn (Z.to_nat (Z.abs limit)) rest).

(** The aggregation stages [$skip] and [$limit]: a negative skip and a
    limit that is not positive are refused. *)
Definition stage_skip_limit {A : Type} (skip limit : Z) (l : list A) : Outcome (list A) :=
  if (skip <? 0) || (limit <=? 0) then Throw InternalError
  else Ok (firstn (Z.to_nat limit) (skipn (Z.to_nat skip) l)).

(** ** getOrders (controllers/order.ts) *)

Record Requester : Type := {
  requester_id : ObjectId;
  requester_roles : list string
}.

(** [user.roles.includes(Role.Admin)] *)
Definition is_admin (user : Requester) : bool :=
  existsb (String.eqb "admin") (requester_roles user).

Record OrdersResponse : Type := {
  orders : list Fields;
  orders_pagination : Pagination
}.

(** [!Number.isNaN(searchNumber) && order.orderNumber === searchNumber] *)
Definition matchesOrderNumber (searchNumber : JsNumber) (o : Order) : bool :=
  match searchNumber with
  | Num n => orderNumber o =? n
  | NaN => false
  end.

(** The [filter] callback of the in-memory search. *)
Definition matches_search (db : Db) (searchRegex : string -> bool)
    (searchNumber : JsNumber) (o : Order) : bool :=
  let found := filter (fun p => searchRegex (title p)) (Products db) in
  let productIds := map product_id found in
  let matchesProduct :=
    existsb (fun product => existsb (fun id => String.eqb id (product_id product)) productIds)
            (resolve_products db o) in
  matchesProduct || matchesOrderNumber searchNumber o.

(** [Order.find({ customer: user._id })] *)
Definition find_orders_of (db : Db) (userId : ObjectId) : list Order :=
  filter (fun o => String.eqb (customer o) userId) (Orders db).

(** The orders the in-memory search keeps, before slicing. *)
Definition customer_search (db : Db) (userId : ObjectId)
    (searchRegex : string -> bool) (searchNumber : JsNumber) : list Order :=
  filter (matches_search db searchRegex searchNumber) (find_orders_of db userId).

(** [$match], both [$lookup]s and both [$unwind]s of the pipeline. *)
Definition joined_rows {E : External} (db : Db) (safeFilters : Fields) : list Row :=
  flat_map
    (fun o =>
       flat_map
         (fun u =>
            map (fun p => {| row_order := o; row_customer := u; row_product := p |})
                (resolve_products db o))
         (resolve_customer db o))
    (filter (mongo_match safeFilters) (Orders db)).

(** The [$match] stage of the search:
    [{ $or: [{ 'products.title': searchRegex }, { orderNumber: searchNumber }] }],
    the second condition present only when [searchNumber] is a number. *)
Definition search_stage (searchRegex : string -> bool) (searchNumber : JsNumber)
    (rows : list Row) : list Row :=
  filter
    (fun r => searchRegex (title (row_product r))
              || matchesOrderNumber searchNumber (row_order r))
    rows.

(** The [$group] stage: one document per order [_id], with the
    products of its rows pushed in row order. *)
Fixpoint add_to_groups (r : Row) (groups : list (Row * list Product))
  : list (Row * list Product) :=
  match groups with
  | [] => [(r, [row_product r])]
  | (g, ps) :: rest =>
      if String.eqb (order_id (row_order g)) (order_id (row_order r))
      then (g, (ps ++ [row_product r])%list) :: rest
      else (g, ps) :: add_to_groups r rest
  end.

Definition group_stage (rows : list Row) : list Fields :=
  map
    (fun g : Row * list Product =>
       let o := row_order (fst g) in
       [("_id", JStr (order_id o));
        ("orderNumber", JNum (Num (orderNumber o)));
        ("status", JStr (status o));
        ("totalAmount", JNum (Num (totalAmount o)));
        ("products", JArr (map (fun p => JObj (product_toObject p)) (snd g)));
        ("customer", JObj (user_toObject (row_customer (fst g))));
        ("createdAt", JDate (Num (createdAt o)))])
    (fold_left (fun groups r => add_to_groups r groups) rows []).

Definition validStatuses : list string :=
  ["new"; "completed"; "cancelled"; "delivering"].

(** [sanitizeSearch(v)] where [v] need not be a string: [v.replace]
    is a [TypeError] for anything else. *)
Definition sanitizeSearch_value (input : JsValue) : Outcome string :=
  match input with
  | JStr s => Ok (sanitizeSearch s)
  | _ => Throw InternalError
  end.

(** [Number(v)] for the values a sanitized query holds (strings and
    objects). *)
Definition Number_value {E : External} (v : JsValue) : JsNumber :=
  match v with
  | JStr s => Number s
  | JNum n => n
  | _ => NaN
  end.

Definition fields_of (v : JsValue) : Fields :=
  match v with
  | JObj fields => fields
  | _ => []
  end.

(** [const { name = fallback } = obj] *)
Definition with_default (v fallback : JsValue) : JsValue :=
  match v with
  | JUndefined => fallback
  | _ => v
  end.

(** [filters[field] = { ...filters[field], [op]: bound }] *)
Definition add_bound (field op : string) (bound : JsValue) (filters : Fields) : Fields :=
  set_field field
    (JObj (spread (fields_of (get_field field filters)) [(op, bound)])) filters.

(** The filter object the admin path builds from the sanitized query. *)
Definition order_filters {E : External} (safeQuery : Fields) : Fields :=
  let status := get_field "status" safeQuery in
  let totalAmountFrom := get_field "totalAmountFrom" safeQuery in
  let totalAmountTo := get_field "totalAmountTo" safeQuery in
  let orderDateFrom := get_field "orderDateFrom" safeQuery in
  let orderDateTo := get_field "orderDateTo" safeQuery in
  let filters : Fields := [] in
  let filters :=
    match status with
    | JStr s =>
        if truthy status && existsb (String.eqb s) validStatuses
        then set_field "status" status filters else filters
    | _ => filters
    end in
  let filters :=
    if truthy totalAmountFrom
    then add_bound "totalAmount" "$gte" (JNum (Number_value totalAmountFrom)) filters
    else filters in
  let filters :=
    if truthy totalAmountTo
    then add_bound "totalAmount" "$lte" (JNum (Number_value totalAmountTo)) filters
    else filters in
  let filters :=
    match orderDateFrom with
    | JStr s =>
        if truthy orderDateFrom
        then add_bound "createdAt" "$gte" (JDate (Date_parse s)) filters
        else filters
    | _ => filters
    end in
  let filters :=
    match orderDateTo with
    | JStr s =>
        if truthy orderDateTo
        then add_bound "createdAt" "$lte" (JDate (Date_parse s)) filters
        else filters
    | _ => filters
    end in
  filters.

(** The [sort] object: empty, or one field with direction [-1] or [1]. *)
Definition order_sort {E : External} (safeQuery : Fields) : Outcome (option (string * Z)) :=
  let sortField := with_default (get_field "sortField" safeQuery) (JStr "createdAt") in
  let sortOrder := with_default (get_field "sortOrder" safeQuery) (JStr "desc") in
  if truthy sortField && truthy sortOrder then
    safeSortField <- cleanHtml sortField ;;
    Ok (Some (safeSortField,
              match sortOrder with
              | JStr s => if String.eqb s "desc" then -1 else 1
              | _ => 1
              end))
  else Ok None.

(** [Order.aggregate(aggregatePipeline)]; a [$sort] stage without a
    key is refused by the store. *)
Definition aggregate {E : External} (db : Db) (safeFilters : Fields)
    (search : option ((string -> bool) * JsNumber))
    (sort : option (string * Z)) (skip limit : Z) : Outcome (list Fields) :=
  let rows := joined_rows db safeFilters in
  let rows :=
    match search with
    | Some (searchRegex, searchNumber) => search_stage searchRegex searchNumber rows
    | None => rows
    end in
  match sort with
  | None => Throw InternalError
  | Some (field, direction) =>
      page_rows <- stage_skip_limit skip limit (mongo_sort field direction rows) ;;
      Ok (group_stage page_rows)
  end.

Definition getOrders {E : External} (db : Db) (user : Requester) (query : Fields)
  : Outcome OrdersResponse :=
  safe <- sanitizeQueryParams (JObj query) ;;
  let safeQuery := fields_of safe in
  let searchTerm := get_field "search" safeQuery in
  safeSearch <- sanitizeSearch_value searchTerm ;;
  searchRegex <- RegExp safeSearch ;;
  let searchNumber := Number safeSearch in
  let page := page_of_query query in
  let limit := limit_of_query query in
  if negb (is_admin user) then
    if truthy searchTerm then
      let filteredOrders :=
        customer_search db (requester_id user) searchRegex searchNumber in
      let totalOrders := Z.of_nat (List.length filteredOrders) in
      let pageOrders := slice ((page - 1) * limit) (page * limit) filteredOrders in
      sanitizedOrders <-
        map_outcome sanitizeOrder
          (map (fun o => order_toObject (JStr (customer o)) (populated_products db o) o)
               pageOrders) ;;
      Ok {| orders := sanitizedOrders;
            orders_pagination := pagination totalOrders page limit |}
    else
      let found := find_orders_of db (requester_id user) in
      userOrders <- skip_limit ((page - 1) * limit) limit found ;;
      let totalOrders := Z.of_nat (List.length found) in
      sanitizedOrders <-
        map_outcome sanitizeOrder
          (map (fun o => order_toObject (populated_customer db o)
                           (populated_products db o) o)
               userOrders) ;;
      Ok {| orders := sanitizedOrders;
            orders_pagination := pagination totalOrders page limit |}
  else
    let filters := order_filters safeQuery in
    safeFilters <- sanitizeAggregationFilters (JObj filters) ;;
    let search :=
      if truthy searchTerm then Some (searchRegex, searchNumber) else None in
    sort <- order_sort safeQuery ;;
    found <- aggregate db (fields_of safeFilters) search sort
               ((page - 1) * limit) limit ;;
    let totalOrders :=
      Z.of_nat (List.length (filter (mongo_match filters) (Orders db))) in
    sanitizedOrders <- map_outcome sanitizeOrder found ;;
    Ok {| orders := sanitizedOrders;
          orders_pagination := pagination totalOrders page limit |}.

(** ** An instance for closed examples

    Stand-ins for the imported functions, used only to evaluate the
    controllers on concrete requests whose texts hold no markup, no
    regex metacharacter and no date: the sanitizer returns such a text
    unchanged, throws on an array and returns the empty string for
    anything else; a regular expression without metacharacters tests for a substring;
    [Number] reads a decimal integer and the empty string as zero. *)

Fixpoint all_digits (s : string) : bool :=
  match s with
  | EmptyString => true
  | String c rest =>
      match digit_value 10 c with
      | Some _ => all_digits rest
      | None => false
      end
  end.

Fixpoint contains (needle subject : string) : bool :=
  String.prefix needle subject
  || match subject with
     | EmptyString => false
     | String _ rest => contains needle rest
     end.

#[local] Instance plain_external : External := {|
  sanitizeHtml v :=
    match v with
    | JStr s => Ok s
    | JArr _ => Throw InternalError
    | _ => Ok ""
    end;
  Number s :=
    if String.eqb s "" then Num 0
    else if all_digits s
         then match read_digits 10 s None with Some n => Num n | None => NaN end
         else NaN;
  RegExp source := Ok (contains source);
  Date_parse _ := NaN;
  setHours_endOfDay t := t;
  ObjectId_isValid v :=
    match v with
    | JStr s => Nat.eqb (String.length s) 24
    | _ => false
    end;
  ObjectId_equals id v :=
    match v with
    | JStr s => String.eqb id s
    | _ => false
    end;
  mongo_condition _ _ := false;
  Order_save _ _ := Throw BadRequestError;
  mongo_sort _ _ rows := rows
|}.

(** A small data set for closed examples: two customers, three
    products (one not for sale) and four orders, the last of which
    refers to a product that is no longer in the store. *)

Definition alice : User :=
  {| user_id := "64b0000000000000000000a1"; roles := ["customer"];
     user_name := "Alice"; user_email := "alice@example.com";
     user_phone := Some "+70000000001" |}.

Definition bob : User :=
  {| user_id := "64b0000000000000000000b2"; roles := ["customer"];
     user_name := "Bob"; user_email := "bob@example.com";
     user_phone := None |}.

Definition green_tea : Product :=
  {| product_id := "64c000000000000000000001"; title := "green tea";
     price := Some 300 |}.

Definition black_tea : Product :=
  {| product_id := "64c000000000000000000002"; title := "black tea";
     price := Some 250 |}.

Definition mug : Product :=
  {| product_id := "64c000000000000000000003"; title := "mug";
     price := None |}.

Definition order1 : Order :=
  {| order_id := "64d000000000000000000001"; orderNumber := 1; status := "new";
     totalAmount := 550;
     products := ["64c000000000000000000001"; "64c000000000000000000002"];
     customer := "64b0000000000000000000a1";
     deliveryAddress := Some "1 Main St"; comment := Some "ring twice";
     email := Some "alice@example.com"; phone := Some "+70000000001";
     createdAt := 1000 |}.

Definition order2 : Order :=
  {| order_id := "64d000000000000000000002"; orderNumber := 2; status := "completed";
     totalAmount := 300;
     products := ["64c000000000000000000001"];
     customer := "64b0000000000000000000a1";
     deliveryAddress := Some "1 Main St"; comment := None;
     email := Some "alice@example.com"; phone := Some "+70000000001";
     createdAt := 2000 |}.

Definition order3 : Order :=
  {| order_id := "64d000000000000000000003"; orderNumber := 3; status := "new";
     totalAmount := 250;
     products := ["64c000000000000000000002"];
     customer := "64b0000000000000000000b2";
     deliveryAddress := Some "2 Side St"; comment := None;
     email := Some "bob@example.com"; phone := None;
     createdAt := 3000 |}.

Definition order4 : Order :=
  {| order_id := "64d000000000000000000004"; orderNumber := 4; status := "new";
     totalAmount := 100;
     products := ["64c000000000000000000009"];
     customer := "64b0000000000000000000a1";
     deliveryAddress := Some "1 Main St"; comment := None;
     email := Some "alice@example.com"; phone := Some "+70000000001";
     createdAt := 4000 |}.

Definition sample_db : Db :=
  {| Orders := [order1; order2; order3; order4];
     Products := [green_tea; black_tea; mug];
     Users := [alice; bob] |}.

Definition alice_session : Requester :=
  {| requester_id := "64b0000000000000000000a1"; requester_roles := ["customer"] |}.

Definition bob_session : Requester :=
  {| requester_id := "64b0000000000000000000b2"; requester_roles := ["customer"] |}.

Definition admin_session : Requester :=
  {| requester_id := "64b0000000000000000000c3"; requester_roles := ["admin"] |}.

(** [key in fields] *)
Definition has_key (key : string) (fields : Fields) : bool :=
  existsb (fun kv => String.eqb (fst kv) key) fields.

(** The keys of an object are pairwise distinct. *)
Fixpoint distinct_keys (fields : Fields) : bool :=
  match fields with
  | [] => true
  | (k, _) :: rest => negb (has_key k rest) && distinct_keys rest
  end.

(** What the Input Sanitizer stores for one value. *)
Definition sanitize_value (value : JsValue) : Outcome JsValue :=
  match value with
  | JStr s =>
      if startsWith_dollar s then Throw BadRequestError
      else Ok (JStr (sanitizeSearch s))
  | JDate _ | JArr _ | JObj _ => sanitizeQueryParams value
  | _ => Ok value
  end.

(** ** The two search paths, before pagination *)

(** Identifiers of the orders of [scope] that pass the [$match] of the
    search in the admin pipeline (after the join and both [$unwind]s,
    before [$sort], [$skip] and [$limit]). *)
Definition admin_search_ids {E : External} (db : Db) (safeFilters : Fields)
    (searchRegex : string -> bool) (searchNumber : JsNumber) (scope : ObjectId)
  : list ObjectId :=
  map (fun r => order_id (row_order r))
      (filter (fun r => String.eqb (customer (row_order r)) scope)
              (search_stage searchRegex searchNumber (joined_rows db safeFilters))).

(** Identifiers of the orders the in-memory search of a customer keeps
    (before [slice]). *)
Definition customer_search_ids (db : Db) (scope : ObjectId)
    (searchRegex : string -> bool) (searchNumber : JsNumber) : list ObjectId :=
  map order_id (customer_search db scope searchRegex searchNumber).

(** Every order of [scope] has its customer and at least one of its
    products in the store. *)
Definition scope_resolves (db : Db) (scope : ObjectId) : bool :=
  forallb
    (fun o =>
       negb (String.eqb (customer o) scope)
       || (negb (Nat.eqb (List.length (resolve_customer db o)) 0)
           && negb (Nat.eqb (List.length (resolve_products db o)) 0)))
    (Orders db).

(** ** Single-record endpoints (controllers/order.ts, controllers/customers.ts) *)

(** [Order.findOne({ orderNumber })] *)
Definition findOne_order (db : Db) (n : Z) : option Order :=
  find (fun o => orderNumber o =? n) (Orders db).

(** The order as [populate(['customer', 'products'])] returns it. *)
Definition populated_order (db : Db) (o : Order) : Fields :=
  order_toObject (populated_customer db o) (populated_products db o) o.


(** [order.customer._id] of a populated order: a [TypeError] when the
    customer of the order is not in the store and the path is [null]. *)
Definition getOrderCurrentUserByNumber {E : External} (db : Db) (user : Requester)
    (params : Fields) : Outcome Fields :=
  match Number_value (get_field "orderNumber" params) with
  | NaN => Throw BadRequestError
  | Num n =>
      match findOne_order db n with
      | None => Throw NotFoundError
      | Some order =>
          match resolve_customer db order with
          | [] => Throw InternalError
          | owner :: _ =>
              if negb (String.eqb (user_id owner) (requester_id user))
              then Throw NotFoundError
              else sanitizeOrder (populated_order db order)
          end
      end
  end.







(** ** createOrder (controllers/order.ts) *)

(** [for (let prop in req.body) cleanOrderData[prop] = cleanHtml(req.body[prop])] *)
Fixpoint clean_body {E : External} (body : Fields) (cleanOrderData : Fields)
  : Outcome Fields :=
  match body with
  | [] => Ok cleanOrderData
  | (prop, value) :: rest =>
      cleaned <- cleanHtml value ;;
      clean_body rest (set_field prop (JStr cleaned) cleanOrderData)
  end.

(** The [forEach] over the valid items: each must be a product of the
    store with a price. *)
Definition basket_of {E : External} (products : list Product) (validItems : list JsValue)
  : Outcome (list Product) :=
  map_outcome
    (fun id =>
       match find (fun p => ObjectId_equals (product_id p) id) products with
       | None => Throw BadRequestError
       | Some product =>
           match price product with
           | None => Throw BadRequestError
           | Some _ => Ok product
           end
       end)
    validItems.

(** [basket.reduce((a, c) => a + c.price, 0)] *)
Definition totalBasket (basket : list Product) : Z :=
  fold_left (fun a c => a + match price c with Some z => z | None => 0 end) basket 0.

(** [n !== v] for a number [n]. *)
Definition number_differs (n : Z) (v : JsValue) : bool :=
  match v with
  | JNum (Num z) => negb (n =? z)
  | _ => true
  end.

(** Everything after the destructuring of the request data. *)
Definition place_order {E : External} (db : Db) (user : Requester)
    (address payment phone total email items comment : JsValue)
  : Outcome (Db * Fields) :=
  match items with
  | JArr ((_ :: _) as ids) =>
      let validItems := filter ObjectId_isValid ids in
      if negb (Nat.eqb (List.length validItems) (List.length ids))
      then Throw BadRequestError
      else
        basket <- basket_of (Products db) validItems ;;
        if number_differs (totalBasket basket) total then Throw BadRequestError
        else
          saved <- Order_save db
                     {| new_totalAmount := total;
                        new_products := validItems;
                        new_payment := payment;
                        new_phone := phone;
                        new_email := email;
                        new_comment := comment;
                        new_customer := requester_id user;
                        new_deliveryAddress := address |} ;;
          response <- sanitizeOrder (populated_order (fst saved) (snd saved)) ;;
          Ok (fst saved, response)
  | _ => Throw BadRequestError
  end.

Definition createOrder {E : External} (db : Db) (user : Requester) (body : Fields)
  : Outcome (Db * Fields) :=
  cleanOrderData <- clean_body body [] ;;
  place_order db user
    (get_field "address" cleanOrderData)
    (get_field "payment" cleanOrderData)
    (get_field "phone" cleanOrderData)
    (get_field "total" cleanOrderData)
    (get_field "email" cleanOrderData)
    (get_field "items" cleanOrderData)
    (get_field "comment" cleanOrderData).

(** Every property of the object is a string. *)
Definition all_strings (fields : Fields) : Prop :=
  Forall (fun kv => exists s, snd kv = JStr s) fields.

(** The sample data after the record of Bob has been deleted: his
    order stays, with a customer reference that no longer resolves. *)
Definition orphan_db : Db :=
  {| Orders := Orders sample_db;
     Products := Products sample_db;
     Users := [alice] |}.





(** * Properties *)

Example sanitizeSearch_plain : sanitizeSearch "apple pie" = "apple pie".
Proof. reflexivity. Qed.

Example sanitizeSearch_dot : sanitizeSearch "a.b" = "a\\.b".
Proof. reflexivity. Qed.


Lemma sanitizeQueryParams_obj fields :
  sanitizeQueryParams (JObj fields) = query_obj_loop fields [].
Proof. reflexivity. Qed.

Lemma sanitizeQueryParams_arr items :
  sanitizeQueryParams (JArr items) = query_arr_loop 0 items [].
Proof. reflexivity. Qed.

Lemma sanitizeAggregationFilters_obj fields :
  sanitizeAggregationFilters (JObj fields) = agg_obj_loop fields [].
Proof. reflexivity. Qed.

Lemma sanitizeAggregationFilters_arr items :
  sanitizeAggregationFilters (JArr items) = agg_arr_loop 0 items [].
Proof. reflexivity. Qed.

(** ** Operator-sentinel firewall *)

Lemma digit_char_not_dollar d :
  (d < 10)%nat -> Ascii.eqb (digit_char d) "$" = false.
Proof.
  intros H.
  do 10 (destruct d as [|d]; [reflexivity|]).
  lia.
Qed.

Lemma index_key_aux_no_dollar fuel :
  forall n acc,
    startsWith_dollar acc = false ->
    startsWith_dollar (index_key_aux fuel n acc) = false.
Proof.
  induction fuel as [|fuel IH]; intros n acc Hacc; simpl.
  - exact Hacc.
  - assert (Hd : startsWith_dollar (String (digit_char (Nat.modulo n 10)) acc) = false).
    { cbn [startsWith_dollar]. apply digit_char_not_dollar.
      apply Nat.mod_upper_bound. discriminate. }
    destruct (Nat.ltb n 10); [exact Hd | apply IH; exact Hd].
Qed.

Lemma index_key_no_dollar i : startsWith_dollar (index_key i) = false.
Proof. apply index_key_aux_no_dollar. reflexivity. Qed.

Lemma set_field_no_dollar key value fields :
  startsWith_dollar key = false ->
  no_dollar_keys fields ->
  no_dollar_keys (set_field key value fields).
Proof.
  intros Hk Hf. induction Hf as [|[k v] rest Hkv Hrest IH]; simpl.
  - constructor; [exact Hk | constructor].
  - destruct (String.eqb k key).
    + constructor; assumption.
    + constructor; assumption.
Qed.

Lemma get_field_dollar_undefined key fields :
  startsWith_dollar key = true ->
  no_dollar_keys fields ->
  get_field key fields = JUndefined.
Proof.
  intros Hk Hf. induction Hf as [|[k v] rest Hkv Hrest IH]; simpl.
  - reflexivity.
  - destruct (String.eqb_spec k key) as [->|_].
    + simpl in Hkv. congruence.
    + exact IH.
Qed.

(** The [$expr] / [$function] checks after the loop never fire: a key
    that begins with the sentinel never reaches [sanitized]. *)
Lemma aggregation_finish_ok sanitized :
  no_dollar_keys sanitized ->
  aggregation_finish sanitized = Ok (JObj sanitized).
Proof.
  intros H. unfold aggregation_finish.
  rewrite !get_field_dollar_undefined by (reflexivity || assumption).
  reflexivity.
Qed.

Lemma agg_obj_loop_spec fields :
  Forall (fun kv => is_object (snd kv) = true ->
                    rejects_exactly has_sentinel sanitizeAggregationFilters (snd kv))
         fields ->
  forall sanitized,
    no_dollar_keys sanitized ->
    if existsb (fun kv => startsWith_dollar (fst kv) || has_sentinel (snd kv)) fields
    then agg_obj_loop fields sanitized = Throw BadRequestError
    else returns (agg_obj_loop fields sanitized).
Proof.
  induction 1 as [|[k v] rest Hv Hrest IH]; intros sanitized Hs; simpl.
  - rewrite aggregation_finish_ok by assumption. eexists; reflexivity.
  - unfold aggregation_entry.
    destruct (startsWith_dollar k) eqn:Hk; simpl; [reflexivity|].
    assert (Hnext : forall x, no_dollar_keys (set_field k x sanitized))
      by (intros x; apply set_field_no_dollar; assumption).
    destruct v as [| |b|n|s|t|items|fs]; simpl;
      try (apply IH; apply Hnext).
    + destruct (startsWith_dollar s); simpl; [reflexivity | apply IH; apply Hnext].
    + specialize (Hv eq_refl). unfold rejects_exactly in Hv. simpl in Hv, Hnext.
      destruct (existsb has_sentinel items).
      * rewrite Hv. reflexivity.
      * destruct Hv as [r ->]. simpl. apply IH; apply Hnext.
    + specialize (Hv eq_refl). unfold rejects_exactly in Hv. simpl in Hv, Hnext.
      destruct (existsb _ fs).
      * rewrite Hv. reflexivity.
      * destruct Hv as [r ->]. simpl. apply IH; apply Hnext.
Qed.

Lemma agg_arr_loop_spec items :
  Forall (fun v => is_object v = true ->
                   rejects_exactly has_sentinel sanitizeAggregationFilters v)
         items ->
  forall i sanitized,
    no_dollar_keys sanitized ->
    if existsb has_sentinel items
    then agg_arr_loop i items sanitized = Throw BadRequestError
    else returns (agg_arr_loop i items sanitized).
Proof.
  induction 1 as [|v rest Hv Hrest IH]; intros i sanitized Hs; simpl.
  - rewrite aggregation_finish_ok by assumption. eexists; reflexivity.
  - unfold aggregation_entry. rewrite index_key_no_dollar.
    assert (Hnext : forall x, no_dollar_keys (set_field (index_key i) x sanitized))
      by (intros x; apply set_field_no_dollar;
          [apply index_key_no_dollar | assumption]).
    destruct v as [| |b|n|s|t|items|fs]; simpl;
      try (apply IH; apply Hnext).
    + destruct (startsWith_dollar s); simpl; [reflexivity | apply IH; apply Hnext].
    + specialize (Hv eq_refl). unfold rejects_exactly in Hv. simpl in Hv, Hnext.
      destruct (existsb has_sentinel items).
      * rewrite Hv. reflexivity.
      * destruct Hv as [r ->]. simpl. apply IH; apply Hnext.
    + specialize (Hv eq_refl). unfold rejects_exactly in Hv. simpl in Hv, Hnext.
      destruct (existsb _ fs).
      * rewrite Hv. reflexivity.
      * destruct Hv as [r ->]. simpl. apply IH; apply Hnext.
Qed.

(** The Aggregation Sanitizer rejects a mapping exactly when some key
    or some string value, at any depth, begins with the sentinel. *)
Lemma sanitizeAggregationFilters_rejects_exactly v :
  is_object v = true ->
  rejects_exactly has_sentinel sanitizeAggregationFilters v.
Proof.
  induction v using JsValue_nested_ind; intros Hobj; try discriminate.
  - unfold rejects_exactly. simpl. eexists; reflexivity.
  - unfold rejects_exactly. rewrite sanitizeAggregationFilters_arr. simpl.
    apply agg_arr_loop_spec; [assumption | constructor].
  - unfold rejects_exactly. rewrite sanitizeAggregationFilters_obj. simpl.
    apply agg_obj_loop_spec; [assumption | constructor].
Qed.

Theorem sanitizeAggregationFilters_BadRequest_iff fields :
  sanitizeAggregationFilters (JObj fields) = Throw BadRequestError
  <-> has_sentinel (JObj fields) = true.
Proof.
  pose proof (sanitizeAggregationFilters_rejects_exactly (JObj fields) eq_refl) as H.
  unfold rejects_exactly in H.
  destruct (has_sentinel (JObj fields)).
  - split; auto.
  - destruct H as [r Hr]. rewrite Hr. split; discriminate.
Qed.

Theorem sanitizeAggregationFilters_total fields :
  has_sentinel (JObj fields) = false ->
  returns (sanitizeAggregationFilters (JObj fields)).
Proof.
  intros Hs.
  pose proof (sanitizeAggregationFilters_rejects_exactly (JObj fields) eq_refl) as H.
  unfold rejects_exactly in H. rewrite Hs in H. exact H.
Qed.

(** The Input Sanitizer looks at values only. *)
Lemma query_obj_loop_spec fields :
  Forall (fun kv => is_object (snd kv) = true ->
                    rejects_exactly has_sentinel_value sanitizeQueryParams (snd kv))
         fields ->
  forall sanitizedData,
    if existsb (fun kv => has_sentinel_value (snd kv)) fields
    then query_obj_loop fields sanitizedData = Throw BadRequestError
    else returns (query_obj_loop fields sanitizedData).
Proof.
  induction 1 as [|[k v] rest Hv Hrest IH]; intros acc; simpl.
  - eexists; reflexivity.
  - destruct v as [| |b|n|s|t|items|fs]; simpl; try apply IH.
    + destruct (startsWith_dollar s); simpl; [reflexivity | apply IH].
    + specialize (Hv eq_refl). unfold rejects_exactly in Hv. simpl in Hv.
      destruct (existsb has_sentinel_value items).
      * rewrite Hv. reflexivity.
      * destruct Hv as [r ->]. simpl. apply IH.
    + specialize (Hv eq_refl). unfold rejects_exactly in Hv. simpl in Hv.
      destruct (existsb _ fs).
      * rewrite Hv. reflexivity.
      * destruct Hv as [r ->]. simpl. apply IH.
Qed.

Lemma query_arr_loop_spec items :
  Forall (fun v => is_object v = true ->
                   rejects_exactly has_sentinel_value sanitizeQueryParams v)
         items ->
  forall i sanitizedData,
    if existsb has_sentinel_value items
    then query_arr_loop i items sanitizedData = Throw BadRequestError
    else returns (query_arr_loop i items sanitizedData).
Proof.
  induction 1 as [|v rest Hv Hrest IH]; intros i acc; simpl.
  - eexists; reflexivity.
  - destruct v as [| |b|n|s|t|items|fs]; simpl; try apply IH.
    + destruct (startsWith_dollar s); simpl; [reflexivity | apply IH].
    + specialize (Hv eq_refl). unfold rejects_exactly in Hv. simpl in Hv.
      destruct (existsb has_sentinel_value items).
      * rewrite Hv. reflexivity.
      * destruct Hv as [r ->]. simpl. apply IH.
    + specialize (Hv eq_refl). unfold rejects_exactly in Hv. simpl in Hv.
      destruct (existsb _ fs).
      * rewrite Hv. reflexivity.
      * destruct Hv as [r ->]. simpl. apply IH.
Qed.

Lemma sanitizeQueryParams_rejects_exactly v :
  is_object v = true ->
  rejects_exactly has_sentinel_value sanitizeQueryParams v.
Proof.
  induction v using JsValue_nested_ind; intros Hobj; try discriminate.
  - unfold rejects_exactly. simpl. eexists; reflexivity.
  - unfold rejects_exactly. rewrite sanitizeQueryParams_arr. simpl.
    apply query_arr_loop_spec; assumption.
  - unfold rejects_exactly. rewrite sanitizeQueryParams_obj. simpl.
    apply query_obj_loop_spec; assumption.
Qed.

Theorem sanitizeQueryParams_BadRequest_iff fields :
  sanitizeQueryParams (JObj fields) = Throw BadRequestError
  <-> has_sentinel_value (JObj fields) = true.
Proof.
  pose proof (sanitizeQueryParams_rejects_exactly (JObj fields) eq_refl) as H.
  unfold rejects_exactly in H.
  destruct (has_sentinel_value (JObj fields)).
  - split; auto.
  - destruct H as [r Hr]. rewrite Hr. split; discriminate.
Qed.

Theorem sanitizeQueryParams_total fields :
  has_sentinel_value (JObj fields) = false ->
  returns (sanitizeQueryParams (JObj fields)).
Proof.
  intros Hs.
  pose proof (sanitizeQueryParams_rejects_exactly (JObj fields) eq_refl) as H.
  unfold rejects_exactly in H. rewrite Hs in H. exact H.
Qed.

(** C1. The request body [{ "$set": { "roles": ["admin"] } }] has a key
    that begins with the operator sentinel; the Aggregation Sanitizer
    rejects it with [BadRequestError], the Input Sanitizer returns it
    with the key intact. *)
Theorem sanitizeQueryParams_keeps_operator_key :
  let body := JObj [("$set", JObj [("roles", JArr [JStr "admin"])])] in
  has_sentinel body = true
  /\ sanitizeAggregationFilters body = Throw BadRequestError
  /\ sanitizeQueryParams body
     = Ok (JObj [("$set", JObj [("roles", JObj [("0", JStr "admin")])])]).
Proof. repeat split; reflexivity. Qed.

(** ** Search escaping *)

Lemma length_app (s1 s2 : string) :
  String.length (s1 ++ s2) = (String.length s1 + String.length s2)%nat.
Proof. induction s1 as [|c s1 IH]; simpl; [reflexivity | now rewrite IH]. Qed.

Lemma replace_each_identity f s :
  (forall c, string_exists (Ascii.eqb c) s = true -> f c = String c EmptyString) ->
  replace_each f s = s.
Proof.
  induction s as [|c s IH]; intros H; simpl; [reflexivity|].
  rewrite (H c) by (simpl; now rewrite Ascii.eqb_refl).
  simpl. f_equal. apply IH. intros c' Hc'. apply H. simpl. rewrite Hc'.
  now rewrite orb_true_r.
Qed.

Lemma string_exists_false_inv p s c :
  string_exists p s = false ->
  string_exists (Ascii.eqb c) s = true ->
  p c = false.
Proof.
  induction s as [|a s IH]; simpl; [discriminate|].
  intros Hp Hc. apply orb_false_iff in Hp as [Hpa Hps].
  apply orb_true_iff in Hc as [Hc|Hc].
  - apply Ascii.eqb_eq in Hc. now subst.
  - now apply IH.
Qed.

(** A term without regex metacharacters and quotes is left unchanged. *)
Theorem sanitizeSearch_plain_identity s :
  string_exists is_search_special s = false ->
  sanitizeSearch s = s.
Proof.
  intros H. unfold sanitizeSearch.
  assert (Hc : forall c, string_exists (Ascii.eqb c) s = true ->
                         is_search_special c = false)
    by (intros c; now apply string_exists_false_inv).
  assert (H1 : replace_each escape_meta s = s).
  { apply replace_each_identity. intros c Hin. specialize (Hc c Hin).
    unfold is_search_special in Hc. unfold escape_meta.
    destruct (is_regex_meta c); [discriminate | reflexivity]. }
  rewrite H1.
  assert (H2 : replace_each double_backslash s = s).
  { apply replace_each_identity. intros c Hin. specialize (Hc c Hin).
    unfold is_search_special in Hc. unfold double_backslash.
    destruct (Ascii.eqb_spec c backslash) as [->|_]; [discriminate | reflexivity]. }
  rewrite H2.
  assert (H3 : replace_each escape_single_quote s = s).
  { apply replace_each_identity. intros c Hin. specialize (Hc c Hin).
    unfold is_search_special in Hc. unfold escape_single_quote.
    destruct (Ascii.eqb c single_quote);
      [now rewrite orb_true_r in Hc | reflexivity]. }
  rewrite H3.
  apply replace_each_identity. intros c Hin. specialize (Hc c Hin).
  unfold is_search_special in Hc. unfold escape_double_quote.
  destruct (Ascii.eqb c double_quote);
    [now rewrite orb_true_r in Hc | reflexivity].
Qed.

Lemma replace_each_length_ge f s :
  (forall c, (1 <= String.length (f c))%nat) ->
  (String.length s <= String.length (replace_each f s))%nat.
Proof.
  intros Hf. induction s as [|c s IH]; simpl; [lia|].
  rewrite length_app. specialize (Hf c). lia.
Qed.

Lemma double_backslash_length s :
  String.length (replace_each double_backslash s)
  = (String.length s + string_count is_backslash s)%nat.
Proof.
  induction s as [|c s IH]; simpl; [reflexivity|].
  rewrite length_app, IH. unfold double_backslash, is_backslash.
  destruct (Ascii.eqb c backslash); simpl; lia.
Qed.

Lemma string_count_app p (s1 s2 : string) :
  string_count p (s1 ++ s2) = (string_count p s1 + string_count p s2)%nat.
Proof. induction s1 as [|c s1 IH]; simpl; [reflexivity | rewrite IH; lia]. Qed.

Lemma escape_meta_backslashes s :
  (string_count is_regex_meta s
   <= string_count is_backslash (replace_each escape_meta s))%nat.
Proof.
  induction s as [|c s IH]; simpl; [lia|].
  rewrite string_count_app. unfold escape_meta at 1.
  destruct (is_regex_meta c); simpl; lia.
Qed.

Lemma string_exists_count p s :
  string_exists p s = true -> (1 <= string_count p s)%nat.
Proof.
  induction s as [|c s IH]; simpl; [discriminate|].
  destruct (p c); simpl; [lia | intros H; specialize (IH H); lia].
Qed.

(** Every term that contains a regex metacharacter comes out longer
    than the once-escaped term: the backslashes added by the first
    replacement are doubled by the second. *)
Theorem sanitizeSearch_not_escape_once s :
  string_exists is_regex_meta s = true ->
  sanitizeSearch s <> escape_once_spec s.
Proof.
  intros Hm Heq.
  assert (Hlen : (String.length (escape_once_spec s)
                  < String.length (sanitizeSearch s))%nat).
  { unfold sanitizeSearch, escape_once_spec.
    pose proof (string_exists_count _ _ Hm) as H1.
    pose proof (escape_meta_backslashes s) as H2.
    pose proof (double_backslash_length (replace_each escape_meta s)) as H3.
    assert (H4 : forall t, (String.length t
                 <= String.length (replace_each escape_single_quote t))%nat).
    { intros t. apply replace_each_length_ge. intros c. unfold escape_single_quote.
      destruct (Ascii.eqb c single_quote); simpl; lia. }
    assert (H5 : forall t, (String.length t
                 <= String.length (replace_each escape_double_quote t))%nat).
    { intros t. apply replace_each_length_ge. intros c. unfold escape_double_quote.
      destruct (Ascii.eqb c double_quote); simpl; lia. }
    specialize (H4 (replace_each double_backslash (replace_each escape_meta s))).
    specialize (H5 (replace_each escape_single_quote
                      (replace_each double_backslash (replace_each escape_meta s)))).
    lia. }
  rewrite Heq in Hlen. lia.
Qed.

(** C8. The search term [a.b] does not begin with the sentinel and has
    one regex metacharacter. Escaped once it is [a\.b]; the code returns
    [a\\.b]: an escaped backslash followed by an unescaped dot. *)
Theorem sanitizeSearch_doubles_escape :
  startsWith_dollar "a.b" = false
  /\ escape_once_spec "a.b" = "a\.b"
  /\ sanitizeSearch "a.b" = "a\\.b"
  /\ sanitizeSearch "a.b" <> escape_once_spec "a.b".
Proof. repeat split; try reflexivity. discriminate. Qed.

(** ** Pagination *)

Example parseInt_negative : parseInt (JStr "-5") = Num (-5).
Proof. reflexivity. Qed.

Example parseInt_prefix : parseInt (JStr "  12abc") = Num 12.
Proof. reflexivity. Qed.

Example parseInt_hex : parseInt (JStr "0x1f") = Num 31.
Proof. reflexivity. Qed.

Example parseInt_word : parseInt (JStr "ten") = NaN.
Proof. reflexivity. Qed.

Example parseInt_missing : parseInt JUndefined = NaN.
Proof. reflexivity. Qed.

(** The page is at least 1 whatever the client sends. *)
Theorem page_of_query_lower_bound query : 1 <= page_of_query query.
Proof. unfold page_of_query. lia. Qed.

(** A page the client gives as a positive integer is used as it is. *)
Theorem page_of_query_positive query z :
  parseInt (get_field "page" query) = Num z -> 0 < z ->
  page_of_query query = z.
Proof.
  intros H Hz. unfold page_of_query. rewrite H. simpl.
  destruct (Z.eqb_spec z 0); lia.
Qed.

(** The limit never exceeds 10 and is never zero. *)
Theorem limit_of_query_upper_bound query :
  limit_of_query query <= 10 /\ limit_of_query query <> 0.
Proof.
  unfold limit_of_query, number_or.
  destruct (parseInt (get_field "limit" query)) as [|z]; [lia|].
  destruct (Z.eqb_spec z 0); lia.
Qed.

(** The limit lies in [1, 10] exactly when the client's value does not
    parse to a negative integer; a negative value is kept. *)
Theorem limit_of_query_range query :
  1 <= limit_of_query query <= 10
  <-> match parseInt (get_field "limit" query) with
      | Num z => 0 <= z
      | NaN => True
      end.
Proof.
  unfold limit_of_query, number_or.
  destruct (parseInt (get_field "limit" query)) as [|z]; [lia|].
  destruct (Z.eqb_spec z 0); lia.
Qed.

Theorem limit_of_query_negative query z :
  parseInt (get_field "limit" query) = Num z -> z < 0 ->
  limit_of_query query = z.
Proof.
  intros H Hz. unfold limit_of_query. rewrite H. simpl.
  destruct (Z.eqb_spec z 0); lia.
Qed.

(** [ceil_div] is the ceiling of the quotient for a positive size:
    the least number of pages that hold [total] items. *)
Theorem ceil_div_spec total size :
  0 < size ->
  total <= ceil_div total size * size
  /\ (ceil_div total size - 1) * size < total.
Proof.
  intros Hs. unfold ceil_div.
  pose proof (Z.div_mod (- total) size ltac:(lia)) as Hdm.
  pose proof (Z.mod_pos_bound (- total) size Hs) as Hb.
  nia.
Qed.

(** ** Order listing *)

Ltac unbind H :=
  repeat
    (match type of H with
     | bind ?c _ = Ok _ =>
         let x := fresh "x" in
         let Hx := fresh "Hx" in
         destruct c as [x|] eqn:Hx; cbn [bind] in H; [|discriminate H]
     | (if ?b then _ else _) = Ok _ => destruct b eqn:?
     end).

(** Every successful listing carries the page and the limit computed
    from the raw query. *)
Lemma getOrders_pagination {E : External} db user query resp :
  getOrders db user query = Ok resp ->
  exists total,
    orders_pagination resp
    = pagination total (page_of_query query) (limit_of_query query).
Proof.
  intros H. unfold getOrders in H. unbind H;
    injection H as <-; cbn [orders_pagination]; eexists; reflexivity.
Qed.

(** C4. A limit that parses to a negative integer is not clamped: the
    listing that answers such a request carries it as [pageSize]. For
    [limit=-5] the page size of the envelope is -5, outside [1, 10]. *)
Theorem getOrders_pageSize_negative {E : External} db user query resp z :
  parseInt (get_field "limit" query) = Num z ->
  z < 0 ->
  getOrders db user query = Ok resp ->
  pageSize (orders_pagination resp) = z
  /\ ~ (1 <= pageSize (orders_pagination resp) <= 10).
Proof.
  intros Hparse Hneg Hres.
  destruct (getOrders_pagination _ _ _ _ Hres) as [total ->].
  cbn [pagination pageSize].
  rewrite (limit_of_query_negative _ _ Hparse Hneg). lia.
Qed.

Lemma getOrders_pageSize_negative_witness :
  exists resp,
    getOrders (E := plain_external) sample_db alice_session
      [("search", JStr "tea"); ("limit", JStr "-5")] = Ok resp
    /\ orders resp = []
    /\ totalItems (orders_pagination resp) = 2
    /\ pageSize (orders_pagination resp) = -5.
Proof.
  eexists. split; [vm_compute; reflexivity|].
  split; [reflexivity|]. split; [reflexivity|].
  apply (getOrders_pageSize_negative (E := plain_external) sample_db alice_session
           [("search", JStr "tea"); ("limit", JStr "-5")] _ (-5)).
  - reflexivity.
  - lia.
  - vm_compute; reflexivity.
Defined.

(** ** Objects as association lists *)

Lemma get_set_same key value fields :
  get_field key (set_field key value fields) = value.
Proof.
  induction fields as [|[k v] rest IH]; simpl.
  - now rewrite String.eqb_refl.
  - destruct (String.eqb k key) eqn:Hk; simpl; rewrite Hk; [reflexivity | exact IH].
Qed.

Lemma get_set_other key key' value fields :
  key <> key' ->
  get_field key (set_field key' value fields) = get_field key fields.
Proof.
  intros Hne. induction fields as [|[k v] rest IH]; simpl.
  - destruct (String.eqb_spec key' key); [congruence | reflexivity].
  - destruct (String.eqb_spec k key') as [->|Hk]; simpl.
    + destruct (String.eqb_spec key' key); [congruence | reflexivity].
    + destruct (String.eqb_spec k key); [reflexivity | exact IH].
Qed.

Lemma get_field_missing key fields :
  has_key key fields = false -> get_field key fields = JUndefined.
Proof.
  induction fields as [|[k v] rest IH]; simpl; [reflexivity|].
  destruct (String.eqb k key); simpl; [discriminate | exact IH].
Qed.

(** ** What the Input Sanitizer returns *)

Lemma query_entry_sanitize_value key value acc acc' :
  query_entry key value (sanitizeQueryParams value) acc = Ok acc' ->
  exists sv, sanitize_value value = Ok sv /\ acc' = set_field key sv acc.
Proof.
  unfold query_entry, sanitize_value.
  destruct value as [| |b|n|s|t|items|fs]; intros H;
    try (injection H as <-; eexists; split; reflexivity).
  - destruct (startsWith_dollar s); [discriminate|].
    injection H as <-. eexists; split; reflexivity.
  - destruct (sanitizeQueryParams (JArr items)); [|discriminate].
    injection H as <-. eexists; split; reflexivity.
  - destruct (sanitizeQueryParams (JObj fs)); [|discriminate].
    injection H as <-. eexists; split; reflexivity.
Qed.

Lemma query_obj_loop_fields fields :
  forall acc r,
    distinct_keys fields = true ->
    query_obj_loop fields acc = Ok r ->
    exists r',
      r = JObj r'
      /\ forall k,
           if has_key k fields
           then sanitize_value (get_field k fields) = Ok (get_field k r')
           else get_field k r' = get_field k acc.
Proof.
  induction fields as [|[key value] rest IH]; intros acc r Hd H; simpl in *.
  - injection H as <-. eexists; split; [reflexivity|]. intros k; reflexivity.
  - apply andb_true_iff in Hd as [Hfresh Hd].
    apply negb_true_iff in Hfresh.
    destruct (query_entry key value (sanitizeQueryParams value) acc) as [acc'|] eqn:He;
      [|discriminate].
    simpl in H.
    destruct (query_entry_sanitize_value _ _ _ _ He) as [sv [Hsv ->]].
    destruct (IH _ _ Hd H) as [r' [-> Hr']].
    eexists; split; [reflexivity|].
    intros k. specialize (Hr' k).
    destruct (String.eqb_spec key k) as [->|Hne]; simpl.
    + rewrite Hfresh in Hr'. rewrite Hr', get_set_same. exact Hsv.
    + destruct (has_key k rest); [exact Hr'|].
      rewrite Hr'. apply get_set_other. congruence.
Qed.

(** Every property of the sanitized query is the sanitized property of
    the query; a property the query lacks stays undefined. *)
Theorem sanitizeQueryParams_field fields safe key :
  distinct_keys fields = true ->
  sanitizeQueryParams (JObj fields) = Ok safe ->
  sanitize_value (get_field key fields) = Ok (get_field key (fields_of safe)).
Proof.
  intros Hd H. rewrite sanitizeQueryParams_obj in H.
  destruct (query_obj_loop_fields _ _ _ Hd H) as [r' [-> Hr']].
  specialize (Hr' key). simpl.
  destruct (has_key key fields) eqn:Hk; [exact Hr'|].
  rewrite Hr'. rewrite (get_field_missing _ _ Hk). reflexivity.
Qed.

(** ** Output sanitizer and list helpers *)

Lemma map_outcome_Forall2 {A B : Type} (f : A -> Outcome B) l l' :
  map_outcome f l = Ok l' -> Forall2 (fun x y => f x = Ok y) l l'.
Proof.
  revert l'. induction l as [|x rest IH]; intros l' H; simpl in H.
  - injection H as <-. constructor.
  - destruct (f x) as [y|] eqn:Hy; [|discriminate]. simpl in H.
    destruct (map_outcome f rest) as [ys|]; [|discriminate]. simpl in H.
    injection H as <-. constructor; [exact Hy | now apply IH].
Qed.

Lemma map_outcome_length {A B : Type} (f : A -> Outcome B) l l' :
  map_outcome f l = Ok l' -> List.length l' = List.length l.
Proof.
  intros H. apply map_outcome_Forall2 in H.
  induction H; simpl; congruence.
Qed.

(** The sanitizer rewrites four properties and keeps every other one. *)
Lemma sanitizeOrder_keeps {E : External} orderObject r key :
  sanitizeOrder orderObject = Ok r ->
  key <> "deliveryAddress" -> key <> "comment" ->
  key <> "email" -> key <> "phone" ->
  get_field key r = get_field key orderObject.
Proof.
  intros H Ha Hc He Hp. unfold sanitizeOrder in H. unbind H.
  injection H as <-. unfold spread. simpl.
  rewrite !get_set_other by assumption. reflexivity.
Qed.

Lemma sanitizeOrder_ids {E : External} (toObject : Order -> Fields) selected sanitized :
  (forall o, get_field "_id" (toObject o) = JStr (order_id o)) ->
  map_outcome sanitizeOrder (map toObject selected) = Ok sanitized ->
  map (get_field "_id") sanitized = map (fun o => JStr (order_id o)) selected.
Proof.
  intros Hid H. apply map_outcome_Forall2 in H.
  revert sanitized H. induction selected as [|o rest IH]; intros sanitized H;
    inversion H; subst; simpl; [reflexivity|].
  f_equal; [|now apply IH].
  rewrite (sanitizeOrder_keeps _ _ "_id" H2) by discriminate. apply Hid.
Qed.

Lemma In_firstn {A : Type} n (l : list A) x : In x (firstn n l) -> In x l.
Proof.
  revert l. induction n as [|n IH]; intros [|a l]; simpl; try tauto.
  intros [->|H]; [now left | right; now apply IH].
Qed.

Lemma In_skipn {A : Type} n (l : list A) x : In x (skipn n l) -> In x l.
Proof.
  revert l. induction n as [|n IH]; intros [|a l]; simpl; try tauto.
  intros H. right. now apply IH.
Qed.

Lemma In_slice {A : Type} start stop (l : list A) x :
  In x (slice start stop l) -> In x l.
Proof. unfold slice. intros H. apply In_firstn in H. now apply In_skipn in H. Qed.

Lemma In_skip_limit {A : Type} skip limit (l page : list A) x :
  skip_limit skip limit l = Ok page -> In x page -> In x l.
Proof.
  unfold skip_limit. destruct (skip <? 0); [discriminate|].
  intros H. injection H as <-.
  destruct (limit =? 0); intros H.
  - now apply In_skipn in H.
  - apply In_firstn in H. now apply In_skipn in H.
Qed.

Lemma In_find_orders_of db userId o :
  In o (find_orders_of db userId) <-> In o (Orders db) /\ customer o = userId.
Proof.
  unfold find_orders_of. rewrite filter_In.
  now rewrite String.eqb_eq.
Qed.

(** The orders a customer's listing shows are orders of that customer. *)
Lemma getOrders_customer_owned {E : External} db user query resp :
  is_admin user = false ->
  getOrders db user query = Ok resp ->
  exists selected,
    (forall o, In o selected ->
               In o (Orders db) /\ customer o = requester_id user)
    /\ map (get_field "_id") (orders resp)
       = map (fun o => JStr (order_id o)) selected.
Proof.
  intros Hrole H. unfold getOrders in H. rewrite Hrole in H. cbn [negb] in H.
  unbind H; injection H as <-; cbn [orders].
  - eexists. split; [|eapply sanitizeOrder_ids; [|eassumption]; reflexivity].
    intros o Ho. apply In_slice in Ho. unfold customer_search in Ho.
    apply filter_In in Ho as [Ho _]. now apply In_find_orders_of.
  - eexists. split; [|eapply sanitizeOrder_ids; [|eassumption]; reflexivity].
    intros o Ho. eapply In_skip_limit in Ho; [|eassumption].
    now apply In_find_orders_of.
Qed.

(** For a customer the listing reads three things from the request:
    the search term, the page and the limit. *)
Lemma getOrders_customer_reads {E : External} db user query query' :
  is_admin user = false ->
  distinct_keys query = true ->
  distinct_keys query' = true ->
  get_field "search" query' = get_field "search" query ->
  get_field "page" query' = get_field "page" query ->
  get_field "limit" query' = get_field "limit" query ->
  returns (sanitizeQueryParams (JObj query)) ->
  returns (sanitizeQueryParams (JObj query')) ->
  getOrders db user query' = getOrders db user query.
Proof.
  intros Hrole Hd Hd' Hsearch Hpage Hlimit [safe Hsafe] [safe' Hsafe'].
  pose proof (sanitizeQueryParams_field _ _ "search" Hd Hsafe) as H1.
  pose proof (sanitizeQueryParams_field _ _ "search" Hd' Hsafe') as H2.
  rewrite Hsearch, H1 in H2. injection H2 as H2.
  unfold getOrders. rewrite Hsafe, Hsafe', Hrole. cbn [bind negb].
  unfold page_of_query, limit_of_query.
  rewrite Hpage, Hlimit, <- H2. reflexivity.
Qed.

(** C3 (amended). For a requester who is not an administrator and a
    query the Input Sanitizer accepts (no string value, at any depth,
    begins with the sentinel), the listing shows only orders whose
    customer is the requester, and it does not apply the status,
    amount and date parameters: two accepted queries with the same
    search term, page and limit get the same answer, whatever their
    other parameters. *)
Theorem getOrders_customer_scope {E : External} db user query query' :
  is_admin user = false ->
  distinct_keys query = true ->
  distinct_keys query' = true ->
  has_sentinel_value (JObj query) = false ->
  has_sentinel_value (JObj query') = false ->
  get_field "search" query' = get_field "search" query ->
  get_field "page" query' = get_field "page" query ->
  get_field "limit" query' = get_field "limit" query ->
  getOrders db user query' = getOrders db user query
  /\ forall resp,
       getOrders db user query = Ok resp ->
       exists selected,
         (forall o, In o selected ->
                    In o (Orders db) /\ customer o = requester_id user)
         /\ map (get_field "_id") (orders resp)
            = map (fun o => JStr (order_id o)) selected.
Proof.
  intros Hrole Hd Hd' Hsafe Hsafe' Hsearch Hpage Hlimit. split.
  - apply getOrders_customer_reads; try assumption;
      now apply sanitizeQueryParams_total.
  - intros resp Hres. eapply getOrders_customer_owned; eassumption.
Qed.

Lemma getOrders_customer_scope_witness :
  getOrders (E := plain_external) sample_db alice_session
    [("search", JStr "tea"); ("status", JStr "completed")]
  = getOrders (E := plain_external) sample_db alice_session
      [("search", JStr "tea")]
  /\ exists resp,
       getOrders (E := plain_external) sample_db alice_session
         [("search", JStr "tea")] = Ok resp
       /\ map (get_field "_id") (orders resp)
          = [JStr "64d000000000000000000001"; JStr "64d000000000000000000002"].
Proof.
  split.
  - apply (getOrders_customer_scope (E := plain_external) sample_db alice_session
             [("search", JStr "tea")]
             [("search", JStr "tea"); ("status", JStr "completed")]);
      reflexivity.
  - eexists. split; [vm_compute; reflexivity | reflexivity].
Defined.

(** C3, as stated, fails: a customer who asks for [status=completed]
    is shown the orders in status [new] as well. *)
Lemma getOrders_customer_status_not_applied :
  ~ (forall (E : External) db user query resp status o,
        is_admin user = false ->
        getOrders db user query = Ok resp ->
        get_field "status" query = JStr status ->
        In status validStatuses ->
        In o (orders resp) ->
        get_field "status" o = JStr status).
Proof.
  intros H.
  assert (Hres : exists resp,
             getOrders (E := plain_external) sample_db alice_session
               [("search", JStr ""); ("status", JStr "completed")] = Ok resp
             /\ exists o, In o (orders resp) /\ get_field "status" o = JStr "new").
  { eexists. split; [vm_compute; reflexivity|].
    eexists. split; [left; reflexivity | reflexivity]. }
  destruct Hres as [resp [Hresp [o [Ho Hnew]]]].
  specialize (H plain_external sample_db alice_session _ resp "completed" o
                eq_refl Hresp eq_refl).
  rewrite H in Hnew; [discriminate | | exact Ho].
  right; left; reflexivity.
Qed.

(** ** Range filters of the admin listing *)

Lemma has_key_set_field key value fields :
  has_key key (set_field key value fields) = true.
Proof.
  induction fields as [|[k v] rest IH]; simpl.
  - now rewrite String.eqb_refl.
  - destruct (String.eqb k key) eqn:Hk; simpl; rewrite Hk; simpl; [reflexivity | exact IH].
Qed.

Lemma existsb_set_field (p : string * JsValue -> bool) key value fields :
  p (key, value) = true ->
  (forall k, String.eqb k key = true -> p (k, value) = p (key, value)) ->
  existsb p (set_field key value fields) = true.
Proof.
  intros Hp Hk. induction fields as [|[k v] rest IH]; simpl.
  - now rewrite Hp.
  - destruct (String.eqb k key) eqn:Heq; simpl.
    + rewrite (Hk k Heq), Hp. reflexivity.
    + rewrite IH. apply orb_true_r.
Qed.

(** A bound is stored under an operator key, which begins with the
    sentinel. *)
Lemma add_bound_has_sentinel field op bound filters :
  startsWith_dollar op = true ->
  has_sentinel (JObj (add_bound field op bound filters)) = true.
Proof.
  intros Hop. unfold add_bound. cbn [has_sentinel].
  apply existsb_set_field.
  - cbn [fst snd has_sentinel]. apply orb_true_iff. right.
    unfold spread. cbn [fold_left fst snd].
    apply existsb_set_field.
    + cbn [fst]. rewrite Hop. reflexivity.
    + intros k Hk. apply String.eqb_eq in Hk. now subst.
  - intros k Hk. apply String.eqb_eq in Hk. now subst.
Qed.

Lemma sanitizeSearch_nonempty s : s <> "" -> sanitizeSearch s <> "".
Proof.
  intros Hs Heq.
  assert (Hlen : (String.length s <= String.length (sanitizeSearch s))%nat).
  { unfold sanitizeSearch.
    repeat (etransitivity; [|apply replace_each_length_ge; intros c]).
    - reflexivity.
    - unfold escape_meta. destruct (is_regex_meta c); simpl; lia.
    - unfold double_backslash. destruct (Ascii.eqb c backslash); simpl; lia.
    - unfold escape_single_quote. destruct (Ascii.eqb c single_quote); simpl; lia.
    - unfold escape_double_quote. destruct (Ascii.eqb c double_quote); simpl; lia. }
  rewrite Heq in Hlen. destruct s; [congruence | simpl in Hlen; lia].
Qed.

(** The filter object holds a date bound as soon as the sanitized
    query has a non-empty [orderDateTo]; the bound is the parsed date
    itself, not the end of that day. *)
Lemma order_filters_orderDateTo {E : External} safeQuery s :
  get_field "orderDateTo" safeQuery = JStr s ->
  s <> "" ->
  exists filters,
    order_filters safeQuery
    = add_bound "createdAt" "$lte" (JDate (Date_parse s)) filters.
Proof.
  intros Hto Hs. unfold order_filters. rewrite Hto. cbn [truthy].
  destruct (String.eqb_spec s ""); [congruence|]. cbn [negb].
  eexists; reflexivity.
Qed.

(** C7. An administrator's listing with a non-empty [orderDateTo]
    never returns: the filter built for it holds the key [$lte], which
    the Aggregation Sanitizer rejects, so no order of day D is listed
    for [orderDateTo = D]. *)
Theorem getOrders_admin_orderDateTo_rejected {E : External} db user query s :
  is_admin user = true ->
  distinct_keys query = true ->
  get_field "orderDateTo" query = JStr s ->
  s <> "" ->
  forall resp, getOrders db user query <> Ok resp.
Proof.
  intros Hrole Hd Hto Hs resp H. unfold getOrders in H.
  destruct (sanitizeQueryParams (JObj query)) as [safe|] eqn:Hsafe; [|discriminate].
  cbn [bind] in H.
  pose proof (sanitizeQueryParams_field _ _ "orderDateTo" Hd Hsafe) as Hf.
  rewrite Hto in Hf. cbn [sanitize_value] in Hf.
  destruct (startsWith_dollar s); [discriminate|]. injection Hf as Hf.
  destruct (order_filters_orderDateTo (fields_of safe) (sanitizeSearch s)
              (eq_sym Hf) (sanitizeSearch_nonempty _ Hs)) as [filters Hfilters].
  pose proof (proj2 (sanitizeAggregationFilters_BadRequest_iff _)
                (add_bound_has_sentinel "createdAt" "$lte"
                   (JDate (Date_parse (sanitizeSearch s))) filters eq_refl)) as Hbad.
  destruct (sanitizeSearch_value (get_field "search" (fields_of safe)));
    [|discriminate]; cbn [bind] in H.
  destruct (RegExp a); [|discriminate]; cbn [bind] in H.
  rewrite Hrole in H. cbn [negb] in H.
  rewrite Hfilters, Hbad in H. discriminate.
Qed.

Lemma getOrders_admin_orderDateTo_rejected_witness :
  getOrders (E := plain_external) sample_db admin_session
    [("search", JStr ""); ("orderDateTo", JStr "2024-01-15")]
  = Throw BadRequestError
  /\ forall resp,
       getOrders (E := plain_external) sample_db admin_session
         [("search", JStr ""); ("orderDateTo", JStr "2024-01-15")] <> Ok resp.
Proof.
  split; [vm_compute; reflexivity|].
  apply (getOrders_admin_orderDateTo_rejected (E := plain_external) sample_db
           admin_session _ "2024-01-15"); try reflexivity.
  discriminate.
Defined.

(** ** Search: the aggregation against the in-memory filter *)

Lemma In_resolve_products db o p :
  In p (resolve_products db o)
  <-> In p (Products db) /\ In (product_id p) (products o).
Proof.
  unfold resolve_products. rewrite filter_In, existsb_exists.
  split; intros [Hp H]; split; try exact Hp.
  - destruct H as [id [Hid Heq]]. apply String.eqb_eq in Heq. now subst.
  - exists (product_id p). split; [exact H | apply String.eqb_refl].
Qed.

(** The product test of the in-memory filter: some product of the
    order has a matching title. *)
Lemma matches_search_spec db searchRegex searchNumber o :
  matches_search db searchRegex searchNumber o = true
  <-> (exists p, In p (resolve_products db o) /\ searchRegex (title p) = true)
      \/ matchesOrderNumber searchNumber o = true.
Proof.
  unfold matches_search. rewrite orb_true_iff, existsb_exists.
  apply or_iff_compat_r. split.
  - intros [product [Hproduct Hids]].
    apply existsb_exists in Hids as [id [Hid Heq]].
    apply String.eqb_eq in Heq. subst id.
    apply in_map_iff in Hid as [q [Hq Hfound]].
    apply filter_In in Hfound as [HqP Hre].
    exists q. split; [|exact Hre].
    apply In_resolve_products. split; [exact HqP|].
    rewrite Hq. now apply In_resolve_products in Hproduct.
  - intros [p [Hp Hre]]. exists p. split; [exact Hp|].
    apply existsb_exists. exists (product_id p). split; [|apply String.eqb_refl].
    apply in_map. apply filter_In. split; [|exact Hre].
    now apply In_resolve_products in Hp.
Qed.

Lemma In_joined_rows {E : External} db safeFilters r :
  In r (joined_rows db safeFilters)
  <-> In (row_order r) (Orders db)
      /\ mongo_match safeFilters (row_order r) = true
      /\ In (row_customer r) (resolve_customer db (row_order r))
      /\ In (row_product r) (resolve_products db (row_order r)).
Proof.
  unfold joined_rows. rewrite in_flat_map. split.
  - intros [o [Ho Hr]]. apply filter_In in Ho as [Ho Hm].
    apply in_flat_map in Hr as [u [Hu Hr]].
    apply in_map_iff in Hr as [p [<- Hp]]. simpl. auto.
  - intros [Ho [Hm [Hu Hp]]]. exists (row_order r). split.
    + apply filter_In. auto.
    + apply in_flat_map. exists (row_customer r). split; [exact Hu|].
      apply in_map_iff. exists (row_product r). split; [|exact Hp].
      destruct r; reflexivity.
Qed.

Lemma nonempty_In {A : Type} (l : list A) :
  Nat.eqb (List.length l) 0 = false -> exists x, In x l.
Proof. destruct l as [|x l]; [discriminate|]. intros _. exists x. now left. Qed.

(** Where every order of a customer has its customer record and at
    least one of its products in the store, the orders of that customer
    that pass the search stage of the unfiltered admin pipeline are the
    orders the in-memory search of the customer keeps, for every search
    expression and search number. Both sets are taken before
    pagination. *)
Theorem search_paths_agree_before_pagination {E : External}
    db scope searchRegex searchNumber id :
  scope_resolves db scope = true ->
  In id (admin_search_ids db [] searchRegex searchNumber scope)
  <-> In id (customer_search_ids db scope searchRegex searchNumber).
Proof.
  intros Hscope. unfold admin_search_ids, customer_search_ids.
  rewrite !in_map_iff. split.
  - intros [r [<- Hr]]. apply filter_In in Hr as [Hr Hc].
    apply String.eqb_eq in Hc.
    unfold search_stage in Hr. apply filter_In in Hr as [Hr Hs].
    apply In_joined_rows in Hr as [Ho [_ [_ Hp]]].
    exists (row_order r). split; [reflexivity|].
    unfold customer_search. apply filter_In. split.
    + now apply In_find_orders_of.
    + apply matches_search_spec. apply orb_true_iff in Hs as [Hs|Hs]; [left | now right].
      exists (row_product r). auto.
  - intros [o [<- Ho]]. unfold customer_search in Ho.
    apply filter_In in Ho as [Ho Hs]. apply In_find_orders_of in Ho as [Ho Hc].
    unfold scope_resolves in Hscope. rewrite forallb_forall in Hscope.
    specialize (Hscope o Ho). rewrite Hc, String.eqb_refl in Hscope.
    cbn [negb orb] in Hscope. apply andb_true_iff in Hscope as [Hu Hp].
    apply negb_true_iff in Hu, Hp.
    destruct (nonempty_In _ Hu) as [u Hu'].
    destruct (nonempty_In _ Hp) as [p0 Hp0].
    apply matches_search_spec in Hs.
    assert (Hrow : exists p, In p (resolve_products db o)
                             /\ (searchRegex (title p)
                                 || matchesOrderNumber searchNumber o) = true).
    { destruct Hs as [[p [Hp' Hre]]|Hn].
      - exists p. rewrite Hre. auto.
      - exists p0. rewrite Hn, orb_true_r. auto. }
    destruct Hrow as [p [Hp' Hmatch]].
    exists {| row_order := o; row_customer := u; row_product := p |}.
    split; [reflexivity|].
    apply filter_In. cbn [row_order]. rewrite Hc, String.eqb_refl. split; [|reflexivity].
    unfold search_stage. apply filter_In. cbn [row_order row_product].
    split; [|exact Hmatch].
    apply In_joined_rows. cbn [row_order row_customer row_product]. auto.
Qed.

Lemma search_paths_agree_before_pagination_witness :
  scope_resolves sample_db (requester_id bob_session) = true
  /\ (In "64d000000000000000000003"
         (admin_search_ids (E := plain_external) sample_db [] (contains "tea") NaN
            (requester_id bob_session))
      <-> In "64d000000000000000000003"
            (customer_search_ids sample_db (requester_id bob_session)
               (contains "tea") NaN)).
Proof.
  split; [reflexivity|].
  apply (search_paths_agree_before_pagination (E := plain_external)).
  reflexivity.
Defined.


(** ** Visibility of single records *)







(** ** Output sanitizer *)

Lemma or_empty_id s : or_empty s = s.
Proof.
  unfold or_empty. destruct (String.eqb_spec s ""); [now subst | reflexivity].
Qed.

(** C5. In the response the properties [deliveryAddress], [email] and
    [phone] are the Markup Sanitizer applied to the same property of
    the record; [comment] is the Markup Sanitizer applied to the whole
    record object, not to its [comment]. *)
Theorem sanitizeOrder_comment_from_record {E : External} orderObject r :
  sanitizeOrder orderObject = Ok r ->
  (exists c, cleanHtml (JObj orderObject) = Ok c /\ get_field "comment" r = JStr c)
  /\ (exists a, cleanHtml (get_field "deliveryAddress" orderObject) = Ok a
                /\ get_field "deliveryAddress" r = JStr a)
  /\ (exists e, cleanHtml (get_field "email" orderObject) = Ok e
                /\ get_field "email" r = JStr e)
  /\ (exists p, cleanHtml (get_field "phone" orderObject) = Ok p
                /\ get_field "phone" r = JStr p).
Proof.
  intros H. unfold sanitizeOrder in H. unbind H. injection H as <-.
  unfold spread. cbn [fold_left fst snd]. rewrite !or_empty_id.
  repeat split; eexists; (split; [reflexivity|]).
  - rewrite !get_set_other by discriminate. apply get_set_same.
  - rewrite !get_set_other by discriminate. apply get_set_same.
  - rewrite !get_set_other by discriminate. apply get_set_same.
  - apply get_set_same.
Qed.

Lemma sanitizeOrder_comment_from_record_witness :
  get_field "comment" (populated_order sample_db order1) = JStr "ring twice"
  /\ exists r,
       sanitizeOrder (E := plain_external) (populated_order sample_db order1) = Ok r
       /\ get_field "comment" r = JStr "".
Proof.
  split; [reflexivity|].
  eexists. split; [vm_compute; reflexivity|].
  destruct (sanitizeOrder_comment_from_record (E := plain_external)
              (populated_order sample_db order1) _ eq_refl)
    as [[c [Hc Hcomment]] _].
  vm_compute in Hc. injection Hc as <-. exact Hcomment.
Defined.

(** ** Order creation *)

Lemma get_field_all_strings key fields :
  all_strings fields ->
  get_field key fields = JUndefined \/ exists s, get_field key fields = JStr s.
Proof.
  induction 1 as [|[k v] rest Hv Hrest IH]; simpl; [now left|].
  destruct (String.eqb k key); [right; exact Hv | exact IH].
Qed.

Lemma set_field_all_strings key s fields :
  all_strings fields -> all_strings (set_field key (JStr s) fields).
Proof.
  induction 1 as [|[k v] rest Hv Hrest IH]; simpl.
  - constructor; [eexists; reflexivity | constructor].
  - destruct (String.eqb k key); constructor; try assumption.
    eexists; reflexivity.
Qed.

Lemma clean_body_all_strings {E : External} body :
  forall acc cleanOrderData,
    all_strings acc ->
    clean_body body acc = Ok cleanOrderData ->
    all_strings cleanOrderData.
Proof.
  induction body as [|[prop value] rest IH]; intros acc d Hacc H; simpl in H.
  - now injection H as <-.
  - destruct (cleanHtml value) as [cleaned|]; [|discriminate]. cbn [bind] in H.
    eapply IH; [|exact H]. now apply set_field_all_strings.
Qed.

(** C10. No request creates an order: the Markup Sanitizer is applied
    to every property of the body, the item list included, so [items]
    is a string (or missing) when [Array.isArray] tests it, and the
    request is answered with [BadRequestError] unless the sanitizer
    itself throws. *)
Theorem createOrder_never_succeeds {E : External} db user body :
  (forall cleanOrderData,
      clean_body body [] = Ok cleanOrderData ->
      createOrder db user body = Throw BadRequestError)
  /\ exists e, createOrder db user body = Throw e.
Proof.
  assert (H : forall d, clean_body body [] = Ok d ->
                        createOrder db user body = Throw BadRequestError).
  { intros d Hd. unfold createOrder. rewrite Hd. cbn [bind].
    pose proof (clean_body_all_strings body [] d (Forall_nil _) Hd) as Hs.
    destruct (get_field_all_strings "items" d Hs) as [->|[s ->]]; reflexivity. }
  split; [exact H|].
  destruct (clean_body body []) as [d|e] eqn:Hd.
  - exists BadRequestError. now apply (H d).
  - exists e. unfold createOrder. rewrite Hd. reflexivity.
Qed.

(** C2. An order that exists and belongs to another customer is not
    always answered with [NotFoundError]: when the record of its
    customer has been deleted, [order.customer] is [null] after
    [populate], reading [order.customer._id] throws, and the requester
    gets an unclassified error. *)
Theorem orphaned_order_is_internal_error {E : External} db user params n order :
  Number_value (get_field "orderNumber" params) = Num n ->
  findOne_order db n = Some order ->
  customer order <> requester_id user ->
  resolve_customer db order = [] ->
  getOrderCurrentUserByNumber db user params = Throw InternalError
  /\ getOrderCurrentUserByNumber db user params <> Throw NotFoundError.
Proof.
  intros Hn Hfind _ Hnone. unfold getOrderCurrentUserByNumber.
  rewrite Hn, Hfind, Hnone. split; [reflexivity | discriminate].
Qed.

Lemma orphaned_order_is_internal_error_witness :
  findOne_order orphan_db 3 = Some order3
  /\ customer order3 <> requester_id alice_session
  /\ getOrderCurrentUserByNumber (E := plain_external) orphan_db alice_session
       [("orderNumber", JStr "3")] = Throw InternalError.
Proof.
  split; [reflexivity|]. split; [discriminate|].
  apply (orphaned_order_is_internal_error (E := plain_external) orphan_db
           alice_session [("orderNumber", JStr "3")] 3 order3);
    try reflexivity; discriminate.
Defined.

(** ** The two listings of a search, on one page *)










Lemma mongo_match_empty {E : External} o : mongo_match [] o = true.
Proof. reflexivity. Qed.









(** ** Further properties of the sanitizers and the endpoints *)

(** X1. The Aggregation Sanitizer rejects a filter object with
    [BadRequestError] exactly when some key or some string value, at
    any depth, begins with the sentinel, and returns otherwise. *)
Theorem aggregation_sanitizer_rejects_sentinels fields :
  (sanitizeAggregationFilters (JObj fields) = Throw BadRequestError
   <-> has_sentinel (JObj fields) = true)
  /\ (returns (sanitizeAggregationFilters (JObj fields))
      <-> has_sentinel (JObj fields) = false).
Proof.
  pose proof (sanitizeAggregationFilters_rejects_exactly (JObj fields) eq_refl) as H.
  unfold rejects_exactly in H.
  destruct (has_sentinel (JObj fields)).
  - rewrite H. repeat split; auto; try discriminate.
    intros [r Hr]. discriminate.
  - destruct H as [r Hr]. rewrite Hr. repeat split; try discriminate.
    intros _. exists r. reflexivity.
Qed.

(** X2. The Input Sanitizer rejects a query object with
    [BadRequestError] exactly when some string value, at any depth,
    begins with the sentinel, and returns otherwise; keys play no part. *)
Theorem input_sanitizer_rejects_sentinel_values fields :
  (sanitizeQueryParams (JObj fields) = Throw BadRequestError
   <-> has_sentinel_value (JObj fields) = true)
  /\ (returns (sanitizeQueryParams (JObj fields))
      <-> has_sentinel_value (JObj fields) = false).
Proof.
  pose proof (sanitizeQueryParams_rejects_exactly (JObj fields) eq_refl) as H.
  unfold rejects_exactly in H.
  destruct (has_sentinel_value (JObj fields)).
  - rewrite H. repeat split; auto; try discriminate.
    intros [r Hr]. discriminate.
  - destruct H as [r Hr]. rewrite Hr. repeat split; try discriminate.
    intros _. exists r. reflexivity.
Qed.

(** X3. Whatever the client sends as [page] and [limit], the page is
    at least 1 and the limit is at most 10 and not zero. *)
Theorem page_and_limit_bounds query :
  1 <= page_of_query query
  /\ limit_of_query query <= 10
  /\ limit_of_query query <> 0.
Proof.
  split; [apply page_of_query_lower_bound | apply limit_of_query_upper_bound].
Qed.

(** X4. A search term without regex metacharacters and quotes passes
    through [sanitizeSearch] unchanged. *)
Theorem sanitizeSearch_keeps_plain_terms s :
  string_exists is_search_special s = false ->
  sanitizeSearch s = s.
Proof. apply sanitizeSearch_plain_identity. Qed.

Lemma sanitizeSearch_keeps_plain_terms_witness :
  sanitizeSearch "green tea 2" = "green tea 2".
Proof. apply sanitizeSearch_keeps_plain_terms. reflexivity. Defined.




(** X7. The Output Sanitizer changes four properties of the record
    and returns every other property as it is. *)
Theorem sanitizeOrder_keeps_other_properties {E : External} orderObject r key :
  sanitizeOrder orderObject = Ok r ->
  key <> "deliveryAddress" -> key <> "comment" ->
  key <> "email" -> key <> "phone" ->
  get_field key r = get_field key orderObject.
Proof. apply sanitizeOrder_keeps. Qed.

Lemma sanitizeOrder_keeps_other_properties_witness :
  exists r,
    sanitizeOrder (E := plain_external) (populated_order sample_db order1) = Ok r
    /\ get_field "status" r = JStr "new".
Proof.
  destruct (sanitizeOrder (E := plain_external) (populated_order sample_db order1))
    as [r|] eqn:Hr; [|vm_compute in Hr; discriminate].
  exists r. split; [reflexivity|].
  rewrite (sanitizeOrder_keeps_other_properties (E := plain_external) _ r "status" Hr);
    try discriminate.
  reflexivity.
Defined.

(** X8. Every listing [getOrders] returns carries the page and the
    limit computed from the raw query, and [totalPages] is
    [ceil(totalItems / pageSize)]. *)
Theorem getOrders_envelope {E : External} db user query resp :
  getOrders db user query = Ok resp ->
  currentPage (orders_pagination resp) = page_of_query query
  /\ pageSize (orders_pagination resp) = limit_of_query query
  /\ totalPages (orders_pagination resp)
     = ceil_div (totalItems (orders_pagination resp))
         (pageSize (orders_pagination resp)).
Proof.
  intros H. destruct (getOrders_pagination _ _ _ _ H) as [total ->].
  repeat split.
Qed.

Lemma getOrders_envelope_witness :
  exists resp,
    getOrders (E := plain_external) sample_db alice_session
      [("search", JStr "tea"); ("limit", JStr "1"); ("page", JStr "2")] = Ok resp
    /\ currentPage (orders_pagination resp) = 2
    /\ pageSize (orders_pagination resp) = 1
    /\ totalPages (orders_pagination resp) = 2.
Proof.
  eexists. split; [vm_compute; reflexivity|].
  destruct (getOrders_envelope (E := plain_external) sample_db alice_session
              [("search", JStr "tea"); ("limit", JStr "1"); ("page", JStr "2")]
              _ eq_refl) as [Hp [Hl Ht]].
  split; [exact Hp|]. split; [exact Hl | reflexivity].
Defined.

